(** * The libSceAvPlayer entry points of shadPS4

    A shallow embedding of [src/core/libraries/avplayer/avplayer.cpp]: the
    guest-callable functions [sceAvPlayer*], the priority derivation
    [GetPriority] and the two initialisation paths.

    The class [AvPlayer] (avplayer_impl.h), the structure declarations
    (avplayer.h), the status constants (error_codes.h) and the kernel's
    thread functions (thread_management.h) belong to other files: they are
    parameters of the development, see [AvPlayerImpl] and [World].
    Logging ([LOG_TRACE], [LOG_ERROR]) is left out of the model. *)

From Stdlib Require Import ZArith Lia.
From stdpp Require Import gmap strings list fin_maps.

Local Open Scope Z_scope.

(** ** Machine integers *)

(** Conversion of an integer value to [u32] and to [u64] (modular), and the
    contextual conversion of an integer to [bool]. *)
Definition to_u32 (x : Z) : Z := x mod 2 ^ 32.
Definition to_u64 (x : Z) : Z := x mod 2 ^ 64.
Definition to_bool (x : Z) : bool := negb (x =? 0).

(** ** Priority derivation *)

(** [constexpr u32 GetPriority(u32 base, u32 offset)]: the addition is the
    [u32] one, [std::min] and [std::max] compare unsigned values. *)
Definition GetPriority (base offset : Z) : Z :=
  Z.min (to_u32 (Z.min (Z.max 637 base) 764 + offset)) 767.

(** ** Structures of avplayer.h used by the entry points *)

(** Guest function pointers and other guest addresses; [nullptr] is 0. *)
Definition fnptr := Z.
Definition nullptr : fnptr := 0.

(** Host objects and guest buffers live at locations; a C++ pointer to one
    of them is an [option loc], [None] being the null pointer. *)
Definition loc := positive.

(** [data->memory_replacement]: the four callbacks the source tests. *)
Record SceAvPlayerMemAllocator := {
  allocate : fnptr;
  deallocate : fnptr;
  allocate_texture : fnptr;
  deallocate_texture : fnptr
}.

(** [SceAvPlayerInitData]. The file and event replacement structures are
    only copied by the source; they are kept as the words they consist of. *)
Record SceAvPlayerInitData := {
  memory_replacement : SceAvPlayerMemAllocator;
  file_replacement : list Z;
  event_replacement : list Z;
  default_language : option string;
  num_output_video_framebuffers : Z;
  auto_start : bool;
  base_priority : Z
}.

(** [SceAvPlayerInitDataEx]; the fields carry the prefix [ex_] since Rocq
    has one name space for the projections of all records. *)
Record SceAvPlayerInitDataEx := {
  ex_memory_replacement : SceAvPlayerMemAllocator;
  ex_file_replacement : list Z;
  ex_event_replacement : list Z;
  ex_default_language : option string;
  ex_num_output_video_framebuffers : Z;
  ex_auto_start : bool;
  ex_video_decoder_priority : Z;
  ex_video_decoder_affinity : Z;
  ex_audio_decoder_priority : Z;
  ex_audio_decoder_affinity : Z;
  ex_controller_priority : Z;
  ex_controller_affinity : Z;
  ex_demuxer_priority : Z;
  ex_demuxer_affinity : Z
}.

(** [ThreadPriorities]; [ThreadPriorities priorities{}] zeroes every field. *)
Record ThreadPriorities := {
  video_decoder_priority : Z;
  video_decoder_affinity : Z;
  audio_decoder_priority : Z;
  audio_decoder_affinity : Z;
  controller_priority : Z;
  controller_affinity : Z;
  demuxer_priority : Z;
  demuxer_affinity : Z
}.

(** The test both initialisation functions make on the allocators, in the
    order of the source. *)
Definition allocator_missing (m : SceAvPlayerMemAllocator) : bool :=
  (allocate m =? nullptr) || (allocate_texture m =? nullptr)
  || (deallocate m =? nullptr) || (deallocate_texture m =? nullptr).

(** Lines 141-146 of the source: the priorities [sceAvPlayerInit] derives
    from [data->base_priority]. *)
Definition Init_priorities (data : SceAvPlayerInitData) : ThreadPriorities :=
  let base_priority :=
    if negb (base_priority data =? 0) then base_priority data else 700 in
  {| video_decoder_priority := GetPriority base_priority 5;
     video_decoder_affinity := 0;
     audio_decoder_priority := GetPriority base_priority 6;
     audio_decoder_affinity := 0;
     controller_priority := GetPriority base_priority 2;
     controller_affinity := 0;
     demuxer_priority := GetPriority base_priority 9;
     demuxer_affinity := 0 |}.

(** Lines 180-184: [s32 base_priority = 0], then the kernel's answer to
    [scePthreadGetprio(scePthreadSelf(), &base_priority)], given as the
    status it returns and the value it stores through the pointer, if it
    stores one. *)
Definition InitEx_base_priority (getprio : Z * option Z) : Z :=
  let base_priority := 0 in
  let res := fst getprio in
  let base_priority := default base_priority (snd getprio) in
  if negb (res =? 0) || (base_priority =? 0) then 700 else base_priority.

(** Lines 186-212: an override of the extended configuration wins when it
    is not zero; the [s32] base becomes the [u32] argument of
    [GetPriority]; affinities are copied. *)
Definition InitEx_priorities (p_data : SceAvPlayerInitDataEx) (base_priority : Z)
  : ThreadPriorities :=
  {| video_decoder_priority :=
       if negb (ex_video_decoder_priority p_data =? 0)
       then ex_video_decoder_priority p_data
       else GetPriority (to_u32 base_priority) 5;
     video_decoder_affinity := ex_video_decoder_affinity p_data;
     audio_decoder_priority :=
       if negb (ex_audio_decoder_priority p_data =? 0)
       then ex_audio_decoder_priority p_data
       else GetPriority (to_u32 base_priority) 6;
     audio_decoder_affinity := ex_audio_decoder_affinity p_data;
     controller_priority :=
       if negb (ex_controller_priority p_data =? 0)
       then ex_controller_priority p_data
       else GetPriority (to_u32 base_priority) 2;
     controller_affinity := ex_controller_affinity p_data;
     demuxer_priority :=
       if negb (ex_demuxer_priority p_data =? 0)
       then ex_demuxer_priority p_data
       else GetPriority (to_u32 base_priority) 9;
     demuxer_affinity := ex_demuxer_affinity p_data |}.

(** Lines 171-177: [SceAvPlayerInitData data = {}] and the six copies. *)
Definition InitEx_data (p_data : SceAvPlayerInitDataEx) : SceAvPlayerInitData :=
  {| memory_replacement := ex_memory_replacement p_data;
     file_replacement := ex_file_replacement p_data;
     event_replacement := ex_event_replacement p_data;
     default_language := ex_default_language p_data;
     num_output_video_framebuffers := ex_num_output_video_framebuffers p_data;
     auto_start := ex_auto_start p_data;
     base_priority := 0 |}.

(** ** What the entry points do to the outside *)

(** The member functions of [AvPlayer] the entry points call. *)
Inductive Method :=
| MAddSource | MCurrentTime | MEnableStream | MGetAudioData | MGetStreamInfo
| MGetVideoData | MGetVideoDataEx | MIsActive | MPostInit | MStart | MStop
| MGetStreamCount.

(** Allocation, initialisation, delegation and destruction, in the order
    they happen. *)
Inductive Event :=
| EvNew (l : loc)
| EvInit (l : loc) (data : SceAvPlayerInitData) (priorities : ThreadPriorities)
| EvCall (l : loc) (m : Method)
| EvDelete (l : loc).

(** The parts of the program that other files define: the class
    [AvPlayer] with the member functions used here (each takes the object
    and gives its result and the object afterwards), the structures handed
    through by reference, and the two status constants, values of type
    [int]. A buffer passed by reference is given as its content before the
    call ([None] when nothing was stored there yet) and after it. *)
Class AvPlayerImpl := {
  AvPlayer : Type;
  SceAvPlayerFrameInfo : Type;
  SceAvPlayerFrameInfoEx : Type;
  SceAvPlayerStreamInfo : Type;
  SceAvPlayerPostInitData : Type;
  ORBIS_OK : Z;
  ORBIS_AVPLAYER_ERROR_INVALID_PARAMS : Z;
  AvPlayer_new : AvPlayer;
  AvPlayer_Init : SceAvPlayerInitData -> ThreadPriorities -> AvPlayer -> AvPlayer;
  AvPlayer_PostInit : SceAvPlayerPostInitData -> AvPlayer -> Z * AvPlayer;
  AvPlayer_AddSource : option string -> AvPlayer -> Z * AvPlayer;
  AvPlayer_CurrentTime : AvPlayer -> Z * AvPlayer;
  AvPlayer_EnableStream : Z -> AvPlayer -> Z * AvPlayer;
  AvPlayer_GetAudioData :
    option SceAvPlayerFrameInfo -> AvPlayer ->
    bool * option SceAvPlayerFrameInfo * AvPlayer;
  AvPlayer_GetStreamInfo :
    Z -> option SceAvPlayerStreamInfo -> AvPlayer ->
    Z * option SceAvPlayerStreamInfo * AvPlayer;
  AvPlayer_GetVideoData :
    option SceAvPlayerFrameInfo -> AvPlayer ->
    bool * option SceAvPlayerFrameInfo * AvPlayer;
  AvPlayer_GetVideoDataEx :
    option SceAvPlayerFrameInfoEx -> AvPlayer ->
    bool * option SceAvPlayerFrameInfoEx * AvPlayer;
  AvPlayer_IsActive : AvPlayer -> bool * AvPlayer;
  AvPlayer_Start : AvPlayer -> Z * AvPlayer;
  AvPlayer_Stop : AvPlayer -> Z * AvPlayer;
  AvPlayer_GetStreamCount : AvPlayer -> Z * AvPlayer
}.

(** ** The entry points *)

Section Facade.
Context {impl : AvPlayerImpl}.

(** The live [AvPlayer] objects, the guest buffers the entry points are
    handed pointers to, the cells that hold handles, what the kernel answers
    the calling thread's priority query, and the events so far. *)
Record World := mkWorld {
  players : gmap loc AvPlayer;
  frame_infos : gmap loc SceAvPlayerFrameInfo;
  frame_infos_ex : gmap loc SceAvPlayerFrameInfoEx;
  stream_infos : gmap loc SceAvPlayerStreamInfo;
  handle_cells : gmap loc (option loc);
  scePthreadGetprio_self : Z * option Z;
  trace : list Event
}.

(** [SceAvPlayerHandle] is [AvPlayer*]. *)
Definition SceAvPlayerHandle := option loc.

(** A guest call runs on the world and gives a value and the world
    afterwards; [None] stands for undefined behaviour, which here is the use
    of a handle that is not null and not live. *)
Definition M (A : Type) : Type := World -> option (A * World).

#[export] Instance M_ret : MRet M := fun A a w => Some (a, w).
#[export] Instance M_bind : MBind M := fun A B f m w =>
  match m w with
  | Some (a, w') => f a w'
  | None => None
  end.

#[export] Instance M_fmap : FMap M := fun A B f m w =>
  match m w with
  | Some (a, w') => Some (f a, w')
  | None => None
  end.

Definition emit (e : Event) : M unit := fun w =>
  Some (tt, mkWorld (players w) (frame_infos w) (frame_infos_ex w)
              (stream_infos w) (handle_cells w) (scePthreadGetprio_self w)
              (trace w ++ [e])).

(** [*handle] *)
Definition get_player (h : loc) : M AvPlayer := fun w =>
  match players w !! h with
  | Some this => Some (this, w)
  | None => None
  end.

Definition set_players (ps : gmap loc AvPlayer) : M unit := fun w =>
  Some (tt, mkWorld ps (frame_infos w) (frame_infos_ex w)
              (stream_infos w) (handle_cells w) (scePthreadGetprio_self w)
              (trace w)).

Definition get_world : M World := fun w => Some (w, w).

Definition set_frame_info (p : loc) (v : option SceAvPlayerFrameInfo) : M unit :=
  fun w =>
  Some (tt, mkWorld (players w) (partial_alter (fun _ => v) p (frame_infos w))
              (frame_infos_ex w) (stream_infos w) (handle_cells w)
              (scePthreadGetprio_self w) (trace w)).

Definition set_frame_info_ex (p : loc) (v : option SceAvPlayerFrameInfoEx) : M unit :=
  fun w =>
  Some (tt, mkWorld (players w) (frame_infos w)
              (partial_alter (fun _ => v) p (frame_infos_ex w))
              (stream_infos w) (handle_cells w)
              (scePthreadGetprio_self w) (trace w)).

Definition set_stream_info (p : loc) (v : option SceAvPlayerStreamInfo) : M unit :=
  fun w =>
  Some (tt, mkWorld (players w) (frame_infos w) (frame_infos_ex w)
              (partial_alter (fun _ => v) p (stream_infos w)) (handle_cells w)
              (scePthreadGetprio_self w) (trace w)).

(** [*p_player = player] *)
Definition store_handle (p : loc) (h : SceAvPlayerHandle) : M unit := fun w =>
  Some (tt, mkWorld (players w) (frame_infos w) (frame_infos_ex w)
              (stream_infos w) (<[p := h]> (handle_cells w))
              (scePthreadGetprio_self w) (trace w)).

(** [handle->m(...)] for a member function without reference arguments. *)
Definition call {A} (h : loc) (m : Method) (f : AvPlayer -> A * AvPlayer) : M A :=
  this ← get_player h;
  emit (EvCall h m);;
  w ← get_world;
  set_players (<[h := snd (f this)]> (players w));;
  mret (fst (f this)).

(** [new AvPlayer()] followed by [player->Init(data, priorities)]. *)
Definition new_player (data : SceAvPlayerInitData) (priorities : ThreadPriorities)
  : M loc :=
  w ← get_world;
  let player := fresh (dom (players w)) in
  emit (EvNew player);;
  emit (EvInit player data priorities);;
  set_players (<[player := AvPlayer_Init data priorities AvPlayer_new]> (players w));;
  mret player.

(** [delete handle] *)
Definition delete_player (h : loc) : M unit :=
  _ ← get_player h;
  emit (EvDelete h);;
  w ← get_world;
  set_players (delete h (players w)).

Definition sceAvPlayerAddSource (handle : SceAvPlayerHandle) (filename : option string)
  : M Z :=
  match handle with
  | None => mret ORBIS_AVPLAYER_ERROR_INVALID_PARAMS
  | Some h => call h MAddSource (AvPlayer_AddSource filename)
  end.

Definition sceAvPlayerAddSourceEx (handle : SceAvPlayerHandle) (uriType : Z)
    (sourceDetails : option loc) : M Z :=
  match handle with
  | None => mret ORBIS_AVPLAYER_ERROR_INVALID_PARAMS
  | Some _ => mret ORBIS_OK
  end.

Definition sceAvPlayerChangeStream : M Z := mret ORBIS_OK.

Definition sceAvPlayerClose (handle : SceAvPlayerHandle) : M Z :=
  match handle with
  | None => mret ORBIS_AVPLAYER_ERROR_INVALID_PARAMS
  | Some h => delete_player h;; mret ORBIS_OK
  end.

(** The function returns [u64]: the [int] constant is converted. *)
Definition sceAvPlayerCurrentTime (handle : SceAvPlayerHandle) : M Z :=
  match handle with
  | None => mret (to_u64 ORBIS_AVPLAYER_ERROR_INVALID_PARAMS)
  | Some h => call h MCurrentTime AvPlayer_CurrentTime
  end.

Definition sceAvPlayerDisableStream (handle : SceAvPlayerHandle) (stream_id : Z) : M Z :=
  match handle with
  | None => mret ORBIS_AVPLAYER_ERROR_INVALID_PARAMS
  | Some _ => mret ORBIS_OK
  end.

Definition sceAvPlayerEnableStream (handle : SceAvPlayerHandle) (stream_id : Z) : M Z :=
  match handle with
  | None => mret ORBIS_AVPLAYER_ERROR_INVALID_PARAMS
  | Some h => call h MEnableStream (AvPlayer_EnableStream stream_id)
  end.

(** The function returns [bool]: the [int] constant is converted. *)
Definition sceAvPlayerGetAudioData (handle : SceAvPlayerHandle) (p_info : option loc)
  : M bool :=
  match handle, p_info with
  | Some h, Some p =>
      w ← get_world;
      '(res, info) ← call h MGetAudioData (fun this =>
          let '(res, info, this') := AvPlayer_GetAudioData (frame_infos w !! p) this in
          ((res, info), this'));
      set_frame_info p info;;
      mret res
  | _, _ => mret (to_bool ORBIS_AVPLAYER_ERROR_INVALID_PARAMS)
  end.

Definition sceAvPlayerGetStreamInfo (handle : SceAvPlayerHandle) (stream_id : Z)
    (p_info : option loc) : M Z :=
  match handle, p_info with
  | Some h, Some p =>
      w ← get_world;
      '(res, info) ← call h MGetStreamInfo (fun this =>
          let '(res, info, this') :=
            AvPlayer_GetStreamInfo stream_id (stream_infos w !! p) this in
          ((res, info), this'));
      set_stream_info p info;;
      mret res
  | _, _ => mret ORBIS_AVPLAYER_ERROR_INVALID_PARAMS
  end.

Definition sceAvPlayerGetVideoData (handle : SceAvPlayerHandle) (video_info : option loc)
  : M bool :=
  match handle, video_info with
  | Some h, Some p =>
      w ← get_world;
      '(res, info) ← call h MGetVideoData (fun this =>
          let '(res, info, this') := AvPlayer_GetVideoData (frame_infos w !! p) this in
          ((res, info), this'));
      set_frame_info p info;;
      mret res
  | _, _ => mret (to_bool ORBIS_AVPLAYER_ERROR_INVALID_PARAMS)
  end.

Definition sceAvPlayerGetVideoDataEx (handle : SceAvPlayerHandle)
    (video_info : option loc) : M bool :=
  match handle, video_info with
  | Some h, Some p =>
      w ← get_world;
      '(res, info) ← call h MGetVideoDataEx (fun this =>
          let '(res, info, this') :=
            AvPlayer_GetVideoDataEx (frame_infos_ex w !! p) this in
          ((res, info), this'));
      set_frame_info_ex p info;;
      mret res
  | _, _ => mret (to_bool ORBIS_AVPLAYER_ERROR_INVALID_PARAMS)
  end.

Definition sceAvPlayerInit (data : option SceAvPlayerInitData) : M SceAvPlayerHandle :=
  match data with
  | None => mret None
  | Some data =>
      if allocator_missing (memory_replacement data) then mret None
      else
        let priorities := Init_priorities data in
        player ← new_player data priorities;
        mret (Some player)
  end.

Definition sceAvPlayerInitEx (p_data : option SceAvPlayerInitDataEx)
    (p_player : option loc) : M Z :=
  match p_data, p_player with
  | Some p_data, Some p_player =>
      if allocator_missing (ex_memory_replacement p_data)
      then mret ORBIS_AVPLAYER_ERROR_INVALID_PARAMS
      else
        let data := InitEx_data p_data in
        w ← get_world;
        let base_priority := InitEx_base_priority (scePthreadGetprio_self w) in
        let priorities := InitEx_priorities p_data base_priority in
        player ← new_player data priorities;
        store_handle p_player (Some player);;
        mret ORBIS_OK
  | _, _ => mret ORBIS_AVPLAYER_ERROR_INVALID_PARAMS
  end.

Definition sceAvPlayerIsActive (handle : SceAvPlayerHandle) : M bool :=
  match handle with
  | None => mret (to_bool ORBIS_AVPLAYER_ERROR_INVALID_PARAMS)
  | Some h => call h MIsActive AvPlayer_IsActive
  end.

Definition sceAvPlayerJumpToTime (handle : SceAvPlayerHandle) (jump_time_msec : Z)
  : M Z :=
  match handle with
  | None => mret ORBIS_AVPLAYER_ERROR_INVALID_PARAMS
  | Some _ => mret ORBIS_OK
  end.

Definition sceAvPlayerPause (handle : SceAvPlayerHandle) : M Z :=
  match handle with
  | None => mret ORBIS_AVPLAYER_ERROR_INVALID_PARAMS
  | Some _ => mret ORBIS_OK
  end.

Definition sceAvPlayerPostInit (handle : SceAvPlayerHandle)
    (data : option SceAvPlayerPostInitData) : M Z :=
  match handle, data with
  | Some h, Some data => call h MPostInit (AvPlayer_PostInit data)
  | _, _ => mret ORBIS_AVPLAYER_ERROR_INVALID_PARAMS
  end.

Definition sceAvPlayerPrintf (format : option string) (args : list Z) : M Z :=
  mret ORBIS_OK.

Definition sceAvPlayerResume (handle : SceAvPlayerHandle) : M Z :=
  match handle with
  | None => mret ORBIS_AVPLAYER_ERROR_INVALID_PARAMS
  | Some _ => mret ORBIS_OK
  end.

Definition sceAvPlayerSetAvSyncMode (handle : SceAvPlayerHandle) (sync_mode : Z) : M Z :=
  match handle with
  | None => mret ORBIS_AVPLAYER_ERROR_INVALID_PARAMS
  | Some _ => mret ORBIS_OK
  end.

Definition sceAvPlayerSetLogCallback (logCb : fnptr) (user_data : Z) : M Z :=
  mret ORBIS_OK.

Definition sceAvPlayerSetLooping (handle : SceAvPlayerHandle) (loop_flag : bool) : M Z :=
  match handle with
  | None => mret ORBIS_AVPLAYER_ERROR_INVALID_PARAMS
  | Some _ => mret ORBIS_OK
  end.

Definition sceAvPlayerSetTrickSpeed (handle : SceAvPlayerHandle) (trick_speed : Z)
  : M Z :=
  match handle with
  | None => mret ORBIS_AVPLAYER_ERROR_INVALID_PARAMS
  | Some _ => mret ORBIS_OK
  end.

Definition sceAvPlayerStart (handle : SceAvPlayerHandle) : M Z :=
  match handle with
  | None => mret ORBIS_AVPLAYER_ERROR_INVALID_PARAMS
  | Some h => call h MStart AvPlayer_Start
  end.

Definition sceAvPlayerStop (handle : SceAvPlayerHandle) : M Z :=
  match handle with
  | None => mret ORBIS_AVPLAYER_ERROR_INVALID_PARAMS
  | Some h => call h MStop AvPlayer_Stop
  end.

Definition sceAvPlayerStreamCount (handle : SceAvPlayerHandle) : M Z :=
  match handle with
  | None => mret ORBIS_AVPLAYER_ERROR_INVALID_PARAMS
  | Some h => call h MGetStreamCount AvPlayer_GetStreamCount
  end.

Definition sceAvPlayerVprintf (format : option string) (args : list Z) : M Z :=
  mret ORBIS_OK.

(** What a successful [sceAvPlayerInit] leaves behind. *)
Definition Init_world (data : SceAvPlayerInitData) (w : World) : World :=
  let player := fresh (dom (players w)) in
  let priorities := Init_priorities data in
  mkWorld (<[player := AvPlayer_Init data priorities AvPlayer_new]> (players w))
    (frame_infos w) (frame_infos_ex w) (stream_infos w) (handle_cells w)
    (scePthreadGetprio_self w)
    ((trace w ++ [EvNew player]) ++ [EvInit player data priorities]).

(** What a successful [sceAvPlayerInitEx] leaves behind. *)
Definition InitEx_world (p_data : SceAvPlayerInitDataEx) (p_player : loc) (w : World)
  : World :=
  let player := fresh (dom (players w)) in
  let data := InitEx_data p_data in
  let priorities :=
    InitEx_priorities p_data (InitEx_base_priority (scePthreadGetprio_self w)) in
  mkWorld (<[player := AvPlayer_Init data priorities AvPlayer_new]> (players w))
    (frame_infos w) (frame_infos_ex w) (stream_infos w)
    (<[p_player := Some player]> (handle_cells w))
    (scePthreadGetprio_self w)
    ((trace w ++ [EvNew player]) ++ [EvInit player data priorities]).

(** *** The entry points other than the two initialisations, as one family *)

Inductive Call :=
| Call_AddSource (handle : SceAvPlayerHandle) (filename : option string)
| Call_AddSourceEx (handle : SceAvPlayerHandle) (uriType : Z) (sourceDetails : option loc)
| Call_ChangeStream
| Call_Close (handle : SceAvPlayerHandle)
| Call_CurrentTime (handle : SceAvPlayerHandle)
| Call_DisableStream (handle : SceAvPlayerHandle) (stream_id : Z)
| Call_EnableStream (handle : SceAvPlayerHandle) (stream_id : Z)
| Call_GetAudioData (handle : SceAvPlayerHandle) (p_info : option loc)
| Call_GetStreamInfo (handle : SceAvPlayerHandle) (stream_id : Z) (p_info : option loc)
| Call_GetVideoData (handle : SceAvPlayerHandle) (video_info : option loc)
| Call_GetVideoDataEx (handle : SceAvPlayerHandle) (video_info : option loc)
| Call_IsActive (handle : SceAvPlayerHandle)
| Call_JumpToTime (handle : SceAvPlayerHandle) (jump_time_msec : Z)
| Call_Pause (handle : SceAvPlayerHandle)
| Call_PostInit (handle : SceAvPlayerHandle) (data : option SceAvPlayerPostInitData)
| Call_Printf (format : option string) (args : list Z)
| Call_Resume (handle : SceAvPlayerHandle)
| Call_SetAvSyncMode (handle : SceAvPlayerHandle) (sync_mode : Z)
| Call_SetLogCallback (logCb : fnptr) (user_data : Z)
| Call_SetLooping (handle : SceAvPlayerHandle) (loop_flag : bool)
| Call_SetTrickSpeed (handle : SceAvPlayerHandle) (trick_speed : Z)
| Call_Start (handle : SceAvPlayerHandle)
| Call_Stop (handle : SceAvPlayerHandle)
| Call_StreamCount (handle : SceAvPlayerHandle)
| Call_Vprintf (format : option string) (args : list Z).

(** A returned value together with the return type of the function. *)
Inductive Ret :=
| Ret_s32 (v : Z)
| Ret_u64 (v : Z)
| Ret_bool (b : bool).

Definition run (c : Call) : M Ret :=
  match c with
  | Call_AddSource h f => Ret_s32 <$> sceAvPlayerAddSource h f
  | Call_AddSourceEx h u d => Ret_s32 <$> sceAvPlayerAddSourceEx h u d
  | Call_ChangeStream => Ret_s32 <$> sceAvPlayerChangeStream
  | Call_Close h => Ret_s32 <$> sceAvPlayerClose h
  | Call_CurrentTime h => Ret_u64 <$> sceAvPlayerCurrentTime h
  | Call_DisableStream h i => Ret_s32 <$> sceAvPlayerDisableStream h i
  | Call_EnableStream h i => Ret_s32 <$> sceAvPlayerEnableStream h i
  | Call_GetAudioData h p => Ret_bool <$> sceAvPlayerGetAudioData h p
  | Call_GetStreamInfo h i p => Ret_s32 <$> sceAvPlayerGetStreamInfo h i p
  | Call_GetVideoData h p => Ret_bool <$> sceAvPlayerGetVideoData h p
  | Call_GetVideoDataEx h p => Ret_bool <$> sceAvPlayerGetVideoDataEx h p
  | Call_IsActive h => Ret_bool <$> sceAvPlayerIsActive h
  | Call_JumpToTime h t => Ret_s32 <$> sceAvPlayerJumpToTime h t
  | Call_Pause h => Ret_s32 <$> sceAvPlayerPause h
  | Call_PostInit h d => Ret_s32 <$> sceAvPlayerPostInit h d
  | Call_Printf f a => Ret_s32 <$> sceAvPlayerPrintf f a
  | Call_Resume h => Ret_s32 <$> sceAvPlayerResume h
  | Call_SetAvSyncMode h m => Ret_s32 <$> sceAvPlayerSetAvSyncMode h m
  | Call_SetLogCallback cb u => Ret_s32 <$> sceAvPlayerSetLogCallback cb u
  | Call_SetLooping h b => Ret_s32 <$> sceAvPlayerSetLooping h b
  | Call_SetTrickSpeed h t => Ret_s32 <$> sceAvPlayerSetTrickSpeed h t
  | Call_Start h => Ret_s32 <$> sceAvPlayerStart h
  | Call_Stop h => Ret_s32 <$> sceAvPlayerStop h
  | Call_StreamCount h => Ret_s32 <$> sceAvPlayerStreamCount h
  | Call_Vprintf f a => Ret_s32 <$> sceAvPlayerVprintf f a
  end.

(** The handle argument of a call, for the functions that have one. *)
Definition handle_of (c : Call) : option SceAvPlayerHandle :=
  match c with
  | Call_ChangeStream | Call_Printf _ _ | Call_SetLogCallback _ _
  | Call_Vprintf _ _ => None
  | Call_AddSource h _ | Call_AddSourceEx h _ _ | Call_Close h
  | Call_CurrentTime h | Call_DisableStream h _ | Call_EnableStream h _
  | Call_GetAudioData h _ | Call_GetStreamInfo h _ _ | Call_GetVideoData h _
  | Call_GetVideoDataEx h _ | Call_IsActive h | Call_JumpToTime h _
  | Call_Pause h | Call_PostInit h _ | Call_Resume h | Call_SetAvSyncMode h _
  | Call_SetLooping h _ | Call_SetTrickSpeed h _ | Call_Start h | Call_Stop h
  | Call_StreamCount h => Some h
  end.

(** The output buffer argument of a call, for the functions that have one. *)
Definition output_of (c : Call) : option (option loc) :=
  match c with
  | Call_GetAudioData _ p | Call_GetStreamInfo _ _ p | Call_GetVideoData _ p
  | Call_GetVideoDataEx _ p => Some p
  | _ => None
  end.

(** The call passes a null handle or a null output buffer. *)
Definition null_argument (c : Call) : bool :=
  bool_decide (handle_of c = Some None) || bool_decide (output_of c = Some None).

(** The eleven functions the source marks as stubs and the specification
    lists as such. *)
Definition is_stub (c : Call) : bool :=
  match c with
  | Call_AddSourceEx _ _ _ | Call_ChangeStream | Call_JumpToTime _ _
  | Call_Pause _ | Call_Resume _ | Call_SetAvSyncMode _ _
  | Call_SetLogCallback _ _ | Call_SetLooping _ _ | Call_SetTrickSpeed _ _
  | Call_Printf _ _ | Call_Vprintf _ _ => true
  | _ => false
  end.

(** The world after [handle->m(...)] has run on the object at [h] and left
    it as [this']. *)
Definition call_world (h : loc) (m : Method) (this' : AvPlayer) (w : World) : World :=
  mkWorld (<[h := this']> (players w)) (frame_infos w) (frame_infos_ex w)
    (stream_infos w) (handle_cells w) (scePthreadGetprio_self w)
    (trace w ++ [EvCall h m]).

(** The handle a call dereferences: the one of a delegating function or of
    [sceAvPlayerClose] that gets past the null checks. *)
Definition dereferences (c : Call) : option loc :=
  match c with
  | Call_AddSource (Some h) _ | Call_Close (Some h) | Call_CurrentTime (Some h)
  | Call_EnableStream (Some h) _ | Call_GetAudioData (Some h) (Some _)
  | Call_GetStreamInfo (Some h) _ (Some _) | Call_GetVideoData (Some h) (Some _)
  | Call_GetVideoDataEx (Some h) (Some _) | Call_IsActive (Some h)
  | Call_PostInit (Some h) (Some _) | Call_Start (Some h) | Call_Stop (Some h)
  | Call_StreamCount (Some h) => Some h
  | _ => None
  end.

End Facade.

(** ** Registration of the entry points *)

(** The functions of the file that [RegisterlibSceAvPlayer] names. *)
Inductive EntryPoint :=
| EP_sceAvPlayerAddSource | EP_sceAvPlayerAddSourceEx | EP_sceAvPlayerChangeStream
| EP_sceAvPlayerClose | EP_sceAvPlayerCurrentTime | EP_sceAvPlayerDisableStream
| EP_sceAvPlayerEnableStream | EP_sceAvPlayerGetAudioData
| EP_sceAvPlayerGetStreamInfo | EP_sceAvPlayerGetVideoData
| EP_sceAvPlayerGetVideoDataEx | EP_sceAvPlayerInit | EP_sceAvPlayerInitEx
| EP_sceAvPlayerIsActive | EP_sceAvPlayerJumpToTime | EP_sceAvPlayerPause
| EP_sceAvPlayerPostInit | EP_sceAvPlayerPrintf | EP_sceAvPlayerResume
| EP_sceAvPlayerSetAvSyncMode | EP_sceAvPlayerSetLogCallback
| EP_sceAvPlayerSetLooping | EP_sceAvPlayerSetTrickSpeed | EP_sceAvPlayerStart
| EP_sceAvPlayerStop | EP_sceAvPlayerStreamCount | EP_sceAvPlayerVprintf.

#[export] Instance EntryPoint_eq_dec : EqDecision EntryPoint.
Proof. solve_decision. Defined.

(** The arguments of one [LIB_FUNCTION(nid, lib, libversion, mod, moduleVersionMajor,
    moduleVersionMinor, function)]. *)
Record LibFunction := {
  nid : string;
  lib : string;
  libversion : Z;
  mod_name : string;
  moduleVersionMajor : Z;
  moduleVersionMinor : Z;
  function : EntryPoint
}.

Definition LIB_FUNCTION (n l : string) (v : Z) (m : string) (ma mi : Z) (f : EntryPoint)
  : LibFunction :=
  {| nid := n; lib := l; libversion := v; mod_name := m;
     moduleVersionMajor := ma; moduleVersionMinor := mi; function := f |}.

(** [RegisterlibSceAvPlayer(sym)]: the registrations it makes, in the order
    of the source, after those [sym] already holds. *)
Definition RegisterlibSceAvPlayer (sym : list LibFunction) : list LibFunction :=
  sym ++
  [ LIB_FUNCTION "KMcEa+rHsIo" "libSceAvPlayer" 1 "libSceAvPlayer" 1 0 EP_sceAvPlayerAddSource;
    LIB_FUNCTION "x8uvuFOPZhU" "libSceAvPlayer" 1 "libSceAvPlayer" 1 0 EP_sceAvPlayerAddSourceEx;
    LIB_FUNCTION "buMCiJftcfw" "libSceAvPlayer" 1 "libSceAvPlayer" 1 0 EP_sceAvPlayerChangeStream;
    LIB_FUNCTION "NkJwDzKmIlw" "libSceAvPlayer" 1 "libSceAvPlayer" 1 0 EP_sceAvPlayerClose;
    LIB_FUNCTION "wwM99gjFf1Y" "libSceAvPlayer" 1 "libSceAvPlayer" 1 0 EP_sceAvPlayerCurrentTime;
    LIB_FUNCTION "BOVKAzRmuTQ" "libSceAvPlayer" 1 "libSceAvPlayer" 1 0 EP_sceAvPlayerDisableStream;
    LIB_FUNCTION "ODJK2sn9w4A" "libSceAvPlayer" 1 "libSceAvPlayer" 1 0 EP_sceAvPlayerEnableStream;
    LIB_FUNCTION "Wnp1OVcrZgk" "libSceAvPlayer" 1 "libSceAvPlayer" 1 0 EP_sceAvPlayerGetAudioData;
    LIB_FUNCTION "d8FcbzfAdQw" "libSceAvPlayer" 1 "libSceAvPlayer" 1 0 EP_sceAvPlayerGetStreamInfo;
    LIB_FUNCTION "o3+RWnHViSg" "libSceAvPlayer" 1 "libSceAvPlayer" 1 0 EP_sceAvPlayerGetVideoData;
    LIB_FUNCTION "JdksQu8pNdQ" "libSceAvPlayer" 1 "libSceAvPlayer" 1 0 EP_sceAvPlayerGetVideoDataEx;
    LIB_FUNCTION "aS66RI0gGgo" "libSceAvPlayer" 1 "libSceAvPlayer" 1 0 EP_sceAvPlayerInit;
    LIB_FUNCTION "o9eWRkSL+M4" "libSceAvPlayer" 1 "libSceAvPlayer" 1 0 EP_sceAvPlayerInitEx;
    LIB_FUNCTION "UbQoYawOsfY" "libSceAvPlayer" 1 "libSceAvPlayer" 1 0 EP_sceAvPlayerIsActive;
    LIB_FUNCTION "XC9wM+xULz8" "libSceAvPlayer" 1 "libSceAvPlayer" 1 0 EP_sceAvPlayerJumpToTime;
    LIB_FUNCTION "9y5v+fGN4Wk" "libSceAvPlayer" 1 "libSceAvPlayer" 1 0 EP_sceAvPlayerPause;
    LIB_FUNCTION "HD1YKVU26-M" "libSceAvPlayer" 1 "libSceAvPlayer" 1 0 EP_sceAvPlayerPostInit;
    LIB_FUNCTION "agig-iDRrTE" "libSceAvPlayer" 1 "libSceAvPlayer" 1 0 EP_sceAvPlayerPrintf;
    LIB_FUNCTION "w5moABNwnRY" "libSceAvPlayer" 1 "libSceAvPlayer" 1 0 EP_sceAvPlayerResume;
    LIB_FUNCTION "k-q+xOxdc3E" "libSceAvPlayer" 1 "libSceAvPlayer" 1 0 EP_sceAvPlayerSetAvSyncMode;
    LIB_FUNCTION "eBTreZ84JFY" "libSceAvPlayer" 1 "libSceAvPlayer" 1 0 EP_sceAvPlayerSetLogCallback;
    LIB_FUNCTION "OVths0xGfho" "libSceAvPlayer" 1 "libSceAvPlayer" 1 0 EP_sceAvPlayerSetLooping;
    LIB_FUNCTION "av8Z++94rs0" "libSceAvPlayer" 1 "libSceAvPlayer" 1 0 EP_sceAvPlayerSetTrickSpeed;
    LIB_FUNCTION "ET4Gr-Uu07s" "libSceAvPlayer" 1 "libSceAvPlayer" 1 0 EP_sceAvPlayerStart;
    LIB_FUNCTION "ZC17w3vB5Lo" "libSceAvPlayer" 1 "libSceAvPlayer" 1 0 EP_sceAvPlayerStop;
    LIB_FUNCTION "hdTyRzCXQeQ" "libSceAvPlayer" 1 "libSceAvPlayer" 1 0 EP_sceAvPlayerStreamCount;
    LIB_FUNCTION "yN7Jhuv8g24" "libSceAvPlayer" 1 "libSceAvPlayer" 1 0 EP_sceAvPlayerVprintf ].

(** ** A small implementation of the parameters

    A player that only remembers whether it was started, with the values
    0 and 0x806A0001 (as an [int]) for the two status constants. Concrete
    calls are evaluated with it. *)

Definition toy_impl : AvPlayerImpl := {|
  AvPlayer := bool;
  SceAvPlayerFrameInfo := Z;
  SceAvPlayerFrameInfoEx := Z;
  SceAvPlayerStreamInfo := Z;
  SceAvPlayerPostInitData := Z;
  ORBIS_OK := 0;
  ORBIS_AVPLAYER_ERROR_INVALID_PARAMS := 0x806A0001 - 2 ^ 32;
  AvPlayer_new := false;
  AvPlayer_Init := fun _ _ this => this;
  AvPlayer_PostInit := fun _ this => (0, this);
  AvPlayer_AddSource := fun _ this => (0, this);
  AvPlayer_CurrentTime := fun this => (0, this);
  AvPlayer_EnableStream := fun _ this => (0, this);
  AvPlayer_GetAudioData := fun info this => (false, info, this);
  AvPlayer_GetStreamInfo := fun _ info this => (0, info, this);
  AvPlayer_GetVideoData := fun info this => (this, info, this);
  AvPlayer_GetVideoDataEx := fun info this => (this, info, this);
  AvPlayer_IsActive := fun this => (this, this);
  AvPlayer_Start := fun _ => (0, true);
  AvPlayer_Stop := fun _ => (0, false);
  AvPlayer_GetStreamCount := fun this => (0, this)
|}.

(** One live player at location 1, started; the thread's priority is 700. *)
Definition toy_world : @World toy_impl :=
  @mkWorld toy_impl {[ 1%positive := true ]} ∅ ∅ ∅ ∅ (0, Some 700) [].

(** The same world with another answer of the kernel to the priority query. *)
Definition toy_world_prio (answer : Z * option Z) : @World toy_impl :=
  @mkWorld toy_impl {[ 1%positive := true ]} ∅ ∅ ∅ ∅ answer [].

Definition toy_allocator : SceAvPlayerMemAllocator :=
  {| allocate := 0x1000; deallocate := 0x1010;
     allocate_texture := 0x1020; deallocate_texture := 0x1030 |}.

Definition toy_data (base : Z) : SceAvPlayerInitData :=
  {| memory_replacement := toy_allocator;
     file_replacement := [];
     event_replacement := [];
     default_language := None;
     num_output_video_framebuffers := 2;
     auto_start := true;
     base_priority := base |}.

Definition toy_data_ex (video audio controller demuxer : Z) : SceAvPlayerInitDataEx :=
  {| ex_memory_replacement := toy_allocator;
     ex_file_replacement := [];
     ex_event_replacement := [];
     ex_default_language := None;
     ex_num_output_video_framebuffers := 2;
     ex_auto_start := true;
     ex_video_decoder_priority := video;
     ex_video_decoder_affinity := 1;
     ex_audio_decoder_priority := audio;
     ex_audio_decoder_affinity := 2;
     ex_controller_priority := controller;
     ex_controller_affinity := 4;
     ex_demuxer_priority := demuxer;
     ex_demuxer_affinity := 8 |}.


(** ** Theorems *)

Example GetPriority_0_5 : GetPriority 0 5 = 642.
Proof. reflexivity. Qed.

Example GetPriority_wraps : GetPriority 0 (2 ^ 32 - 1) = 636.
Proof. reflexivity. Qed.

(** C1: for every base priority in [0, 1000] and every offset among 2, 5, 6
    and 9, [GetPriority] returns min(min(max(637, base), 764) + offset, 767);
    in particular it maps (0,5) to 642, (700,5) to 705, (1000,9) to 767 and
    (637,2) to 639. *)
Theorem GetPriority_spec (base o : Z) :
  0 <= base <= 1000 ->
  o = 2 \/ o = 5 \/ o = 6 \/ o = 9 ->
  GetPriority base o = Z.min (Z.min (Z.max 637 base) 764 + o) 767
  /\ GetPriority 0 5 = 642
  /\ GetPriority 700 5 = 705
  /\ GetPriority 1000 9 = 767
  /\ GetPriority 637 2 = 639.
Proof.
  intros Hb Ho. split; [|repeat split; reflexivity].
  unfold GetPriority, to_u32.
  rewrite Z.mod_small; [reflexivity|].
  change (2 ^ 32) with 4294967296. lia.
Qed.

Lemma GetPriority_spec_witness :
  GetPriority 1000 9 = Z.min (Z.min (Z.max 637 1000) 764 + 9) 767
  /\ GetPriority 0 5 = 642
  /\ GetPriority 700 5 = 705
  /\ GetPriority 1000 9 = 767
  /\ GetPriority 637 2 = 639.
Proof. apply (GetPriority_spec 1000 9); lia. Defined.

Section FacadeProperties.
Context {impl : AvPlayerImpl}.

Ltac unfold_M :=
  unfold call, new_player, delete_player, emit, get_player, set_players,
    get_world, set_frame_info, set_frame_info_ex, set_stream_info,
    store_handle;
  unfold fmap, M_fmap, mbind, M_bind, mret, M_ret; simpl.

Lemma sceAvPlayerInit_ok (data : SceAvPlayerInitData) (w : World) :
  allocator_missing (memory_replacement data) = false ->
  sceAvPlayerInit (Some data) w
  = Some (Some (fresh (dom (players w))), Init_world data w).
Proof.
  intros Halloc. unfold sceAvPlayerInit. rewrite Halloc.
  unfold_M. reflexivity.
Qed.

Lemma sceAvPlayerInitEx_ok (p_data : SceAvPlayerInitDataEx) (p_player : loc) (w : World) :
  allocator_missing (ex_memory_replacement p_data) = false ->
  sceAvPlayerInitEx (Some p_data) (Some p_player) w
  = Some (ORBIS_OK, InitEx_world p_data p_player w).
Proof.
  intros Halloc. unfold sceAvPlayerInitEx. rewrite Halloc.
  unfold_M. reflexivity.
Qed.

Lemma allocator_missing_true (m : SceAvPlayerMemAllocator) :
  allocate m = nullptr \/ allocate_texture m = nullptr
  \/ deallocate m = nullptr \/ deallocate_texture m = nullptr ->
  allocator_missing m = true.
Proof.
  unfold allocator_missing.
  intros [H | [H | [H | H]]]; rewrite H; simpl;
    rewrite ?orb_true_r; reflexivity.
Qed.

(** C3: when one of the four memory callbacks of the configuration is null,
    [sceAvPlayerInit] returns the null handle and [sceAvPlayerInitEx] returns
    ORBIS_AVPLAYER_ERROR_INVALID_PARAMS, whatever the other fields (and, for
    the extended variant, the output cell) are; neither changes anything. *)
Theorem Init_rejects_missing_allocator
    (data : SceAvPlayerInitData) (p_data : SceAvPlayerInitDataEx)
    (p_player : option loc) (w : World) :
  (allocate (memory_replacement data) = nullptr
   \/ allocate_texture (memory_replacement data) = nullptr
   \/ deallocate (memory_replacement data) = nullptr
   \/ deallocate_texture (memory_replacement data) = nullptr ->
   sceAvPlayerInit (Some data) w = Some (None, w))
  /\ (allocate (ex_memory_replacement p_data) = nullptr
      \/ allocate_texture (ex_memory_replacement p_data) = nullptr
      \/ deallocate (ex_memory_replacement p_data) = nullptr
      \/ deallocate_texture (ex_memory_replacement p_data) = nullptr ->
      sceAvPlayerInitEx (Some p_data) p_player w
      = Some (ORBIS_AVPLAYER_ERROR_INVALID_PARAMS, w)).
Proof.
  split; intros H; apply allocator_missing_true in H.
  - unfold sceAvPlayerInit. rewrite H. reflexivity.
  - unfold sceAvPlayerInitEx. rewrite H. destruct p_player; reflexivity.
Qed.

(** C4: in [sceAvPlayerInitEx] that gets past its checks, the priorities
    handed to the new player are, for each of the four subsystems, the
    override of the extended configuration when that is not zero, and
    otherwise [GetPriority] of the base priority with the offset 5 (video
    decoder), 6 (audio decoder), 9 (demuxer) or 2 (controller). *)
Theorem InitEx_override_or_derived
    (p_data : SceAvPlayerInitDataEx) (p_player : loc) (w : World) :
  allocator_missing (ex_memory_replacement p_data) = false ->
  exists w' priorities,
    let player := fresh (dom (players w)) in
    let base := to_u32 (InitEx_base_priority (scePthreadGetprio_self w)) in
    sceAvPlayerInitEx (Some p_data) (Some p_player) w = Some (ORBIS_OK, w')
    /\ trace w' = (trace w ++ [EvNew player])
                  ++ [EvInit player (InitEx_data p_data) priorities]
    /\ (ex_video_decoder_priority p_data <> 0 ->
        video_decoder_priority priorities = ex_video_decoder_priority p_data)
    /\ (ex_audio_decoder_priority p_data <> 0 ->
        audio_decoder_priority priorities = ex_audio_decoder_priority p_data)
    /\ (ex_demuxer_priority p_data <> 0 ->
        demuxer_priority priorities = ex_demuxer_priority p_data)
    /\ (ex_controller_priority p_data <> 0 ->
        controller_priority priorities = ex_controller_priority p_data)
    /\ (ex_video_decoder_priority p_data = 0 ->
        video_decoder_priority priorities = GetPriority base 5)
    /\ (ex_audio_decoder_priority p_data = 0 ->
        audio_decoder_priority priorities = GetPriority base 6)
    /\ (ex_demuxer_priority p_data = 0 ->
        demuxer_priority priorities = GetPriority base 9)
    /\ (ex_controller_priority p_data = 0 ->
        controller_priority priorities = GetPriority base 2).
Proof.
  intros Halloc.
  exists (InitEx_world p_data p_player w).
  exists (InitEx_priorities p_data (InitEx_base_priority (scePthreadGetprio_self w))).
  simpl. split; [apply sceAvPlayerInitEx_ok; exact Halloc|].
  split; [reflexivity|].
  repeat split; intros H;
    first [ apply Z.eqb_neq in H; rewrite H; reflexivity
          | rewrite H; reflexivity ].
Qed.

(** C5: [sceAvPlayerInit] on a configuration whose base_priority is 0
    derives the same four priorities as on the same configuration with
    base_priority 700, and hands them to the new player. *)
Theorem Init_base_priority_zero_is_700
    (mr : SceAvPlayerMemAllocator) (fr er : list Z) (lang : option string)
    (nfb : Z) (auto : bool) (w : World) :
  let data b := {| memory_replacement := mr; file_replacement := fr;
                   event_replacement := er; default_language := lang;
                   num_output_video_framebuffers := nfb; auto_start := auto;
                   base_priority := b |} in
  Init_priorities (data 0) = Init_priorities (data 700)
  /\ (allocator_missing mr = false ->
      exists player w0 w700 priorities,
        sceAvPlayerInit (Some (data 0)) w = Some (Some player, w0)
        /\ sceAvPlayerInit (Some (data 700)) w = Some (Some player, w700)
        /\ trace w0 = (trace w ++ [EvNew player])
                      ++ [EvInit player (data 0) priorities]
        /\ trace w700 = (trace w ++ [EvNew player])
                        ++ [EvInit player (data 700) priorities]
        /\ video_decoder_priority priorities = 705
        /\ audio_decoder_priority priorities = 706
        /\ demuxer_priority priorities = 709
        /\ controller_priority priorities = 702).
Proof.
  intros data. split; [reflexivity|]. intros Halloc.
  exists (fresh (dom (players w))), (Init_world (data 0) w),
    (Init_world (data 700) w), (Init_priorities (data 700)).
  split; [apply sceAvPlayerInit_ok; exact Halloc|].
  split; [apply sceAvPlayerInit_ok; exact Halloc|].
  repeat split.
Qed.

(** C6: the base priority [sceAvPlayerInitEx] derives from is the priority
    the kernel reports for the calling thread when the query returns 0 and
    the reported priority is not 0, and 700 when the query returns another
    status or the priority is 0; the priorities handed to the new player
    are computed from that base. *)
Theorem InitEx_base_priority_spec
    (p_data : SceAvPlayerInitDataEx) (p_player : loc) (w : World) :
  let res := fst (scePthreadGetprio_self w) in
  let prio := default 0 (snd (scePthreadGetprio_self w)) in
  allocator_missing (ex_memory_replacement p_data) = false ->
  exists base w',
    let player := fresh (dom (players w)) in
    sceAvPlayerInitEx (Some p_data) (Some p_player) w = Some (ORBIS_OK, w')
    /\ trace w' = (trace w ++ [EvNew player])
                  ++ [EvInit player (InitEx_data p_data)
                        (InitEx_priorities p_data base)]
    /\ base = InitEx_base_priority (scePthreadGetprio_self w)
    /\ (res = 0 -> prio <> 0 -> base = prio)
    /\ (res <> 0 \/ prio = 0 -> base = 700).
Proof.
  intros res prio Halloc.
  exists (InitEx_base_priority (scePthreadGetprio_self w)),
    (InitEx_world p_data p_player w).
  split; [apply sceAvPlayerInitEx_ok; exact Halloc|].
  split; [reflexivity|].
  split; [reflexivity|].
  unfold InitEx_base_priority. fold res. fold prio.
  destruct (Z.eqb_spec res 0) as [Hres|Hres];
    destruct (Z.eqb_spec prio 0) as [Hp|Hp]; simpl; split;
    try reflexivity; try congruence; intros; try reflexivity;
    try contradiction; intuition congruence.
Qed.

(** C2, as the code has it: a call of an entry point other than the
    initialisations that passes a null handle or a null output buffer
    delegates nothing and changes nothing; it returns
    ORBIS_AVPLAYER_ERROR_INVALID_PARAMS when the function returns [s32], that
    constant converted to [u64] for sceAvPlayerCurrentTime, and a boolean
    for the four functions that return [bool]. The four functions without a
    handle parameter make no check and return ORBIS_OK. *)
Theorem null_argument_no_delegation (c : Call) (w : World) :
  (null_argument c = true ->
   exists r, run c w = Some (r, w)
     /\ match c with
        | Call_CurrentTime _ => r = Ret_u64 (to_u64 ORBIS_AVPLAYER_ERROR_INVALID_PARAMS)
        | Call_GetAudioData _ _ | Call_GetVideoData _ _
        | Call_GetVideoDataEx _ _ | Call_IsActive _ => exists b, r = Ret_bool b
        | _ => r = Ret_s32 ORBIS_AVPLAYER_ERROR_INVALID_PARAMS
        end)
  /\ (handle_of c = None -> run c w = Some (Ret_s32 ORBIS_OK, w)).
Proof.
  split.
  - unfold null_argument. intros H.
    destruct c as [h ?|h ? ?| |h|h|h ?|h ?|h p|h ? p|h p|h p|h|h ?|h|h ?|? ?
                  |h|h ?|? ?|h ?|h ?|h|h|h|? ?];
      simpl in H; try discriminate H;
      try (destruct h as [h|]; [discriminate H|]);
      try (eexists; split; [reflexivity|]; eauto; fail).
    all: destruct h as [h|], p as [p|]; try discriminate H;
      eexists; (split; [reflexivity|]); eauto.
  - destruct c; simpl; intros H; try discriminate H; reflexivity.
Qed.

(** C7: each of the eleven stub functions returns ORBIS_OK when its handle
    is not null (or when it has no handle parameter), returns
    ORBIS_AVPLAYER_ERROR_INVALID_PARAMS when it has a handle parameter and
    the handle is null, and changes nothing. *)
Theorem stub_returns_ok (c : Call) (w : World) :
  is_stub c = true ->
  run c w
  = Some (Ret_s32 (match handle_of c with
                   | Some None => ORBIS_AVPLAYER_ERROR_INVALID_PARAMS
                   | _ => ORBIS_OK
                   end), w).
Proof.
  destruct c; simpl; intros H; try discriminate H;
    try reflexivity; destruct handle; reflexivity.
Qed.

(** C8: on a live handle [sceAvPlayerClose] returns ORBIS_OK and destroys
    the player, once, whatever state the player is in: afterwards the
    handle is not live any more, one [delete] of it was recorded, and
    nothing else changed. *)
Theorem Close_frees_once (h : loc) (this : AvPlayer) (w : World) :
  players w !! h = Some this ->
  exists w',
    sceAvPlayerClose (Some h) w = Some (ORBIS_OK, w')
    /\ players w' = delete h (players w)
    /\ players w' !! h = None
    /\ trace w' = trace w ++ [EvDelete h]
    /\ frame_infos w' = frame_infos w
    /\ frame_infos_ex w' = frame_infos_ex w
    /\ stream_infos w' = stream_infos w
    /\ handle_cells w' = handle_cells w.
Proof.
  intros Hlive. unfold sceAvPlayerClose. unfold_M. rewrite Hlive.
  eexists. split; [reflexivity|]. simpl.
  repeat split. apply lookup_delete_eq.
Qed.

(** C9: when ORBIS_AVPLAYER_ERROR_INVALID_PARAMS is not zero,
    sceAvPlayerGetAudioData, sceAvPlayerGetVideoData and
    sceAvPlayerGetVideoDataEx called with a null handle or a null output
    buffer, and sceAvPlayerIsActive called with a null handle, return true
    and change nothing; the same boolean comes back from a call on a live
    handle whose member function answers true. *)
Theorem bool_entry_points_null_is_true (handle : SceAvPlayerHandle) (p : option loc)
    (w : World) :
  ORBIS_AVPLAYER_ERROR_INVALID_PARAMS <> 0 ->
  (handle = None \/ p = None ->
   sceAvPlayerGetAudioData handle p w = Some (true, w)
   /\ sceAvPlayerGetVideoData handle p w = Some (true, w)
   /\ sceAvPlayerGetVideoDataEx handle p w = Some (true, w))
  /\ sceAvPlayerIsActive None w = Some (true, w)
  /\ (forall h this, players w !! h = Some this ->
      fst (AvPlayer_IsActive this) = true ->
      exists w', sceAvPlayerIsActive (Some h) w = Some (true, w')).
Proof.
  intros Hnz.
  assert (Htrue : to_bool ORBIS_AVPLAYER_ERROR_INVALID_PARAMS = true).
  { unfold to_bool. apply negb_true_iff, Z.eqb_neq, Hnz. }
  split; [|split].
  - intros [-> | ->]; [|destruct handle]; simpl;
      unfold mret, M_ret; rewrite Htrue; auto.
  - simpl. unfold mret, M_ret. rewrite Htrue. reflexivity.
  - intros h this Hlive Hact. unfold sceAvPlayerIsActive. unfold_M.
    rewrite Hlive, Hact. eexists. reflexivity.
Qed.

(** C10: [sceAvPlayerInit] on a null configuration returns the null handle,
    and [sceAvPlayerInitEx] on a null configuration or a null output cell
    returns ORBIS_AVPLAYER_ERROR_INVALID_PARAMS; in each case no player is
    made and no cell is written: the world is as before. *)
Theorem Init_null_config (p_data : option SceAvPlayerInitDataEx)
    (p_player : option loc) (w : World) :
  sceAvPlayerInit None w = Some (None, w)
  /\ sceAvPlayerInitEx None p_player w
     = Some (ORBIS_AVPLAYER_ERROR_INVALID_PARAMS, w)
  /\ sceAvPlayerInitEx p_data None w
     = Some (ORBIS_AVPLAYER_ERROR_INVALID_PARAMS, w).
Proof.
  repeat split.
  destruct p_data; reflexivity.
Qed.

End FacadeProperties.

(** ** The theorems at concrete calls *)

Example toy_InitEx :
  @sceAvPlayerInitEx toy_impl (Some (toy_data_ex 0 650 0 0)) (Some 7%positive) toy_world
  = Some (0, @mkWorld toy_impl {[ 1%positive := true; 2%positive := false ]} ∅ ∅ ∅
               {[ 7%positive := Some 2%positive ]} (0, Some 700)
               [EvNew 2%positive;
                EvInit 2%positive (toy_data 0)
                  {| video_decoder_priority := 705; video_decoder_affinity := 1;
                     audio_decoder_priority := 650; audio_decoder_affinity := 2;
                     controller_priority := 702; controller_affinity := 4;
                     demuxer_priority := 709; demuxer_affinity := 8 |}]).
Proof. vm_compute. reflexivity. Qed.

Example toy_Stop_then_IsActive :
  (@sceAvPlayerStop toy_impl (Some 1%positive) ;; @sceAvPlayerIsActive toy_impl (Some 1%positive))
    toy_world
  = Some (false, @mkWorld toy_impl {[ 1%positive := false ]} ∅ ∅ ∅ ∅ (0, Some 700)
                   [EvCall 1%positive MStop; EvCall 1%positive MIsActive]).
Proof. vm_compute. reflexivity. Qed.

Example toy_dangling_handle :
  @sceAvPlayerStart toy_impl (Some 5%positive) toy_world = None.
Proof. reflexivity. Qed.

(** C2 as the specification words it fails: sceAvPlayerGetAudioData with a
    null handle returns the boolean true, which is not the status
    ORBIS_AVPLAYER_ERROR_INVALID_PARAMS. *)
Lemma null_argument_status_counterexample :
  let c := @Call_GetAudioData toy_impl None (Some 1%positive) in
  null_argument c = true
  /\ run c toy_world = Some (Ret_bool true, toy_world)
  /\ run c toy_world
     <> Some (Ret_s32 (@ORBIS_AVPLAYER_ERROR_INVALID_PARAMS toy_impl), toy_world).
Proof.
  split; [reflexivity|]. split; [reflexivity|].
  intros H. discriminate H.
Qed.

Lemma null_argument_no_delegation_witness :
  null_argument (@Call_Start toy_impl None) = true
  /\ exists r, run (@Call_Start toy_impl None) toy_world = Some (r, toy_world)
       /\ r = Ret_s32 (0x806A0001 - 2 ^ 32).
Proof.
  split; [reflexivity|].
  apply (proj1 (@null_argument_no_delegation toy_impl (Call_Start None) toy_world)).
  reflexivity.
Defined.

Lemma Init_rejects_missing_allocator_witness :
  let m := {| allocate := 0x1000; deallocate := 0;
              allocate_texture := 0x1020; deallocate_texture := 0x1030 |} in
  let data := {| memory_replacement := m; file_replacement := [];
                 event_replacement := []; default_language := None;
                 num_output_video_framebuffers := 2; auto_start := true;
                 base_priority := 700 |} in
  let p_data := {| ex_memory_replacement := m; ex_file_replacement := [];
                   ex_event_replacement := []; ex_default_language := None;
                   ex_num_output_video_framebuffers := 2; ex_auto_start := true;
                   ex_video_decoder_priority := 700; ex_video_decoder_affinity := 1;
                   ex_audio_decoder_priority := 700; ex_audio_decoder_affinity := 2;
                   ex_controller_priority := 700; ex_controller_affinity := 4;
                   ex_demuxer_priority := 700; ex_demuxer_affinity := 8 |} in
  deallocate m = nullptr
  /\ @sceAvPlayerInit toy_impl (Some data) toy_world = Some (None, toy_world)
  /\ @sceAvPlayerInitEx toy_impl (Some p_data) (Some 7%positive) toy_world
     = Some (0x806A0001 - 2 ^ 32, toy_world).
Proof.
  intros m data p_data. split; [reflexivity|].
  destruct (@Init_rejects_missing_allocator toy_impl data p_data (Some 7%positive)
              toy_world) as [Hinit Hex].
  split; [apply Hinit | apply Hex]; right; right; left; reflexivity.
Defined.

Lemma InitEx_override_or_derived_witness :
  allocator_missing (ex_memory_replacement (toy_data_ex 0 650 0 0)) = false
  /\ exists w' priorities,
       @sceAvPlayerInitEx toy_impl (Some (toy_data_ex 0 650 0 0)) (Some 7%positive)
         toy_world = Some (0, w')
       /\ trace w' = [EvNew 2%positive; EvInit 2%positive (toy_data 0) priorities]
       /\ audio_decoder_priority priorities = 650
       /\ video_decoder_priority priorities = 705.
Proof.
  split; [reflexivity|].
  destruct (@InitEx_override_or_derived toy_impl (toy_data_ex 0 650 0 0) 7%positive
              toy_world eq_refl)
    as (w' & priorities & Hrun & Htrace & _ & Haudio & _ & _ & Hvideo & _).
  exists w', priorities.
  split; [exact Hrun|]. split; [exact Htrace|].
  split; [apply Haudio; discriminate | apply Hvideo; reflexivity].
Defined.

Lemma Init_base_priority_zero_is_700_witness :
  allocator_missing toy_allocator = false
  /\ Init_priorities (toy_data 0) = Init_priorities (toy_data 700)
  /\ exists player w0 w700 priorities,
       @sceAvPlayerInit toy_impl (Some (toy_data 0)) toy_world = Some (Some player, w0)
       /\ @sceAvPlayerInit toy_impl (Some (toy_data 700)) toy_world
          = Some (Some player, w700)
       /\ trace w0 = [EvNew player; EvInit player (toy_data 0) priorities]
       /\ trace w700 = [EvNew player; EvInit player (toy_data 700) priorities].
Proof.
  split; [reflexivity|].
  destruct (@Init_base_priority_zero_is_700 toy_impl toy_allocator [] [] None 2
              true toy_world) as [Heq Hrun].
  split; [exact Heq|].
  destruct (Hrun eq_refl) as (player & w0 & w700 & priorities & H0 & H700 & T0 & T700 & _).
  exists player, w0, w700, priorities. auto.
Defined.

Lemma InitEx_base_priority_spec_witness :
  allocator_missing (ex_memory_replacement (toy_data_ex 0 0 0 0)) = false
  /\ exists base w',
       @sceAvPlayerInitEx toy_impl (Some (toy_data_ex 0 0 0 0)) (Some 7%positive)
         toy_world = Some (0, w')
       /\ base = 700.
Proof.
  split; [reflexivity|].
  destruct (@InitEx_base_priority_spec toy_impl (toy_data_ex 0 0 0 0) 7%positive
              toy_world eq_refl)
    as (base & w' & Hrun & _ & _ & Hbase & _).
  exists base, w'. split; [exact Hrun|].
  apply Hbase; [reflexivity | discriminate].
Defined.

Lemma stub_returns_ok_witness :
  is_stub (@Call_Pause toy_impl (Some 1%positive)) = true
  /\ run (@Call_Pause toy_impl (Some 1%positive)) toy_world
     = Some (Ret_s32 0, toy_world).
Proof.
  split; [reflexivity|].
  apply (@stub_returns_ok toy_impl (Call_Pause (Some 1%positive)) toy_world).
  reflexivity.
Defined.

Lemma Close_frees_once_witness :
  players toy_world !! 1%positive = Some true
  /\ exists w',
       @sceAvPlayerClose toy_impl (Some 1%positive) toy_world = Some (0, w')
       /\ players w' !! 1%positive = None
       /\ trace w' = [EvDelete 1%positive].
Proof.
  split; [reflexivity|].
  destruct (@Close_frees_once toy_impl 1%positive true toy_world eq_refl)
    as (w' & Hrun & _ & Hgone & Htrace & _).
  exists w'. split; [exact Hrun|]. split; [exact Hgone | exact Htrace].
Defined.

Lemma bool_entry_points_null_is_true_witness :
  @ORBIS_AVPLAYER_ERROR_INVALID_PARAMS toy_impl <> 0
  /\ @sceAvPlayerIsActive toy_impl None toy_world = Some (true, toy_world).
Proof.
  split; [discriminate|].
  apply (@bool_entry_points_null_is_true toy_impl None None toy_world).
  discriminate.
Defined.

(** ** Further properties of the priority derivation *)

Lemma clamp_range (base : Z) : 637 <= Z.min (Z.max 637 base) 764 <= 764.
Proof. lia. Qed.

Lemma GetPriority_no_wrap (base offset : Z) :
  0 <= offset <= 2 ^ 32 - 765 ->
  GetPriority base offset = Z.min (Z.min (Z.max 637 base) 764 + offset) 767.
Proof.
  intros Ho. unfold GetPriority, to_u32.
  pose proof (clamp_range base) as Hc.
  change (2 ^ 32) with 4294967296 in *.
  rewrite Z.mod_small; [reflexivity | lia].
Qed.

(** X1: the result of [GetPriority] never exceeds 767, whatever the
    arguments; when the offset is at most 2^32 - 765 the addition cannot wrap
    and the result is at least min(637 + offset, 767), so for the offsets up
    to 130 it lies in the band from 637 + offset to 767. *)
Theorem GetPriority_band (base offset : Z) :
  GetPriority base offset <= 767
  /\ (0 <= offset <= 2 ^ 32 - 765 ->
      Z.min (637 + offset) 767 <= GetPriority base offset)
  /\ (0 <= offset <= 130 -> 637 + offset <= GetPriority base offset <= 767).
Proof.
  split; [unfold GetPriority; lia|].
  pose proof (clamp_range base) as Hc.
  split; intros Ho.
  - rewrite GetPriority_no_wrap by exact Ho. lia.
  - rewrite GetPriority_no_wrap by (change (2 ^ 32) with 4294967296; lia). lia.
Qed.

Lemma GetPriority_band_witness :
  637 + 9 <= GetPriority 12 9 <= 767.
Proof.
  apply (proj2 (proj2 (GetPriority_band 12 9))). lia.
Defined.

(** X2: [GetPriority] sees its base only through the clamp to 637..764: a
    base below 637 gives what 637 gives, a base above 764 what 764 gives;
    and without wrap-around a larger base never gives a smaller priority. *)
Theorem GetPriority_saturates (base base' offset : Z) :
  (base <= 637 -> GetPriority base offset = GetPriority 637 offset)
  /\ (764 <= base -> GetPriority base offset = GetPriority 764 offset)
  /\ (0 <= offset <= 2 ^ 32 - 765 -> base <= base' ->
      GetPriority base offset <= GetPriority base' offset).
Proof.
  split; [|split].
  - intros H. unfold GetPriority. do 2 f_equal. lia.
  - intros H. unfold GetPriority. do 2 f_equal. lia.
  - intros Ho Hb. rewrite !GetPriority_no_wrap by exact Ho. lia.
Qed.

Lemma GetPriority_saturates_witness :
  GetPriority 3 5 = GetPriority 637 5
  /\ GetPriority 4000 5 = GetPriority 764 5
  /\ GetPriority 640 5 <= GetPriority 700 5.
Proof.
  destruct (GetPriority_saturates 3 3 5) as [H1 _].
  destruct (GetPriority_saturates 4000 4000 5) as (_ & H2 & _).
  destruct (GetPriority_saturates 640 700 5) as (_ & _ & H3).
  split; [apply H1; lia|]. split; [apply H2; lia|].
  apply H3; [change (2 ^ 32) with 4294967296|]; lia.
Defined.

(** X3: an offset of 2^32 - 637 or more makes the [u32] addition wrap: the
    result is the clamped base plus the offset minus 2^32, which is below
    the clamped base and so can fall under 637. *)
Theorem GetPriority_wraps_below (base offset : Z) :
  2 ^ 32 - 637 <= offset < 2 ^ 32 ->
  GetPriority base offset = Z.min (Z.max 637 base) 764 + offset - 2 ^ 32
  /\ GetPriority base offset < Z.min (Z.max 637 base) 764.
Proof.
  intros Ho. pose proof (clamp_range base) as Hc.
  unfold GetPriority, to_u32. change (2 ^ 32) with 4294967296 in *.
  set (t := Z.min (Z.max 637 base) 764) in *.
  assert (Hm : (t + offset) mod 4294967296 = t + offset - 4294967296).
  { symmetry. apply (Z.mod_unique _ _ 1); lia. }
  rewrite Hm. lia.
Qed.

Lemma GetPriority_wraps_below_witness :
  GetPriority 637 (2 ^ 32 - 1) = 636.
Proof.
  destruct (GetPriority_wraps_below 637 (2 ^ 32 - 1)) as [H _].
  - change (2 ^ 32) with 4294967296. lia.
  - rewrite H. reflexivity.
Defined.

(** ** The registration table *)

(** X4: [RegisterlibSceAvPlayer] on an empty table registers 27 functions,
    all under library and module libSceAvPlayer with versions 1, 1 and 0;
    no NID occurs twice, no function is registered twice, and every entry
    point of the file is registered. *)
Theorem RegisterlibSceAvPlayer_table :
  let table := RegisterlibSceAvPlayer [] in
  length table = 27%nat
  /\ NoDup (map nid table)
  /\ NoDup (map function table)
  /\ (forall f : EntryPoint, In f (map function table))
  /\ Forall (fun e => lib e = "libSceAvPlayer" /\ libversion e = 1
                      /\ mod_name e = "libSceAvPlayer"
                      /\ moduleVersionMajor e = 1 /\ moduleVersionMinor e = 0)
       table.
Proof.
  simpl. split; [reflexivity|].
  split; [apply (bool_decide_unpack (NoDup _)); vm_compute; exact I|].
  split; [apply (bool_decide_unpack (NoDup _)); vm_compute; exact I|].
  split.
  - intros f. destruct f; simpl; tauto.
  - repeat constructor.
Qed.

(** ** Further properties of the entry points *)

Section FacadeFurther.
Context {impl : AvPlayerImpl}.

Ltac run_M :=
  unfold call, new_player, delete_player, emit, get_player, set_players,
    get_world, set_frame_info, set_frame_info_ex, set_stream_info,
    store_handle;
  unfold fmap, M_fmap, mbind, M_bind, mret, M_ret; simpl.

Lemma fresh_not_live (w : World) : players w !! fresh (dom (players w)) = None.
Proof. apply not_elem_of_dom, is_fresh. Qed.

Lemma bind_Some {A B} (m : M A) (k : A -> M B) (w w' : World) (a : A) :
  m w = Some (a, w') -> (m ≫= k) w = k a w'.
Proof. intros H. unfold mbind, M_bind. rewrite H. reflexivity. Qed.

Lemma Init_run (data : SceAvPlayerInitData) (w : World) :
  allocator_missing (memory_replacement data) = false ->
  sceAvPlayerInit (Some data) w
  = Some (Some (fresh (dom (players w))), Init_world data w).
Proof.
  intros Halloc. unfold sceAvPlayerInit. rewrite Halloc. run_M. reflexivity.
Qed.

Lemma InitEx_run (p_data : SceAvPlayerInitDataEx) (p_player : loc) (w : World) :
  allocator_missing (ex_memory_replacement p_data) = false ->
  sceAvPlayerInitEx (Some p_data) (Some p_player) w
  = Some (ORBIS_OK, InitEx_world p_data p_player w).
Proof.
  intros Halloc. unfold sceAvPlayerInitEx. rewrite Halloc. run_M. reflexivity.
Qed.

Lemma Close_run (h : loc) (this : AvPlayer) (w : World) :
  players w !! h = Some this ->
  sceAvPlayerClose (Some h) w
  = Some (ORBIS_OK,
          mkWorld (delete h (players w)) (frame_infos w) (frame_infos_ex w)
            (stream_infos w) (handle_cells w) (scePthreadGetprio_self w)
            (trace w ++ [EvDelete h])).
Proof.
  intros Hlive. unfold sceAvPlayerClose. run_M. rewrite Hlive. reflexivity.
Qed.

(** X5: the priorities [sceAvPlayerInit] hands to the new player lie in the
    band 639..767 and are ordered controller <= video decoder <= audio
    decoder <= demuxer, for every value of base_priority; the four
    affinities are 0. *)
Theorem Init_priorities_ordered (data : SceAvPlayerInitData) (w : World) :
  allocator_missing (memory_replacement data) = false ->
  exists w' priorities,
    let player := fresh (dom (players w)) in
    sceAvPlayerInit (Some data) w = Some (Some player, w')
    /\ trace w' = (trace w ++ [EvNew player]) ++ [EvInit player data priorities]
    /\ 639 <= controller_priority priorities
    /\ controller_priority priorities <= video_decoder_priority priorities
    /\ video_decoder_priority priorities <= audio_decoder_priority priorities
    /\ audio_decoder_priority priorities <= demuxer_priority priorities
    /\ demuxer_priority priorities <= 767
    /\ video_decoder_affinity priorities = 0
    /\ audio_decoder_affinity priorities = 0
    /\ controller_affinity priorities = 0
    /\ demuxer_affinity priorities = 0.
Proof.
  intros Halloc.
  exists (Init_world data w), (Init_priorities data). simpl.
  split; [apply Init_run; exact Halloc|].
  split; [reflexivity|].
  set (b := if negb (base_priority data =? 0) then base_priority data else 700).
  assert (H2 : 0 <= 2 <= 2 ^ 32 - 765) by (change (2 ^ 32) with 4294967296; lia).
  assert (H5 : 0 <= 5 <= 2 ^ 32 - 765) by (change (2 ^ 32) with 4294967296; lia).
  assert (H6 : 0 <= 6 <= 2 ^ 32 - 765) by (change (2 ^ 32) with 4294967296; lia).
  assert (H9 : 0 <= 9 <= 2 ^ 32 - 765) by (change (2 ^ 32) with 4294967296; lia).
  rewrite (GetPriority_no_wrap b 2 H2), (GetPriority_no_wrap b 5 H5),
    (GetPriority_no_wrap b 6 H6), (GetPriority_no_wrap b 9 H9).
  repeat split; lia.
Qed.

(** X6: when the kernel reports a negative priority for the calling thread,
    the conversion of the [s32] base to the [u32] parameter makes it larger
    than 764: with no overrides [sceAvPlayerInitEx] hands the player the
    priorities 767, 767, 766 and 767 (video decoder, audio decoder,
    controller, demuxer), the top of the band and not its bottom. *)
Theorem InitEx_negative_base (p_data : SceAvPlayerInitDataEx) (p_player : loc)
    (w : World) (prio : Z) :
  allocator_missing (ex_memory_replacement p_data) = false ->
  scePthreadGetprio_self w = (0, Some prio) ->
  - 2 ^ 31 <= prio < 0 ->
  ex_video_decoder_priority p_data = 0 ->
  ex_audio_decoder_priority p_data = 0 ->
  ex_controller_priority p_data = 0 ->
  ex_demuxer_priority p_data = 0 ->
  exists w',
    let player := fresh (dom (players w)) in
    sceAvPlayerInitEx (Some p_data) (Some p_player) w = Some (ORBIS_OK, w')
    /\ trace w' = (trace w ++ [EvNew player])
         ++ [EvInit player (InitEx_data p_data)
               {| video_decoder_priority := 767;
                  video_decoder_affinity := ex_video_decoder_affinity p_data;
                  audio_decoder_priority := 767;
                  audio_decoder_affinity := ex_audio_decoder_affinity p_data;
                  controller_priority := 766;
                  controller_affinity := ex_controller_affinity p_data;
                  demuxer_priority := 767;
                  demuxer_affinity := ex_demuxer_affinity p_data |}].
Proof.
  intros Halloc Hq Hprio Hv Ha Hc Hd.
  exists (InitEx_world p_data p_player w). simpl.
  split; [apply InitEx_run; exact Halloc|].
  unfold InitEx_world. simpl. do 3 f_equal.
  unfold InitEx_priorities. rewrite Hv, Ha, Hc, Hd, Hq. simpl.
  unfold InitEx_base_priority. simpl.
  destruct (Z.eqb_spec prio 0) as [H0|_]; [lia|].
  assert (Hbig : 764 <= to_u32 prio).
  { unfold to_u32. change (2 ^ 31) with 2147483648 in Hprio.
    change (2 ^ 32) with 4294967296.
    rewrite <- (Z.mod_unique prio 4294967296 (-1) (prio + 4294967296)); lia. }
  pose proof (GetPriority_saturates (to_u32 prio) 0) as Hsat.
  rewrite (proj1 (proj2 (Hsat 5)) Hbig), (proj1 (proj2 (Hsat 6)) Hbig),
    (proj1 (proj2 (Hsat 2)) Hbig), (proj1 (proj2 (Hsat 9)) Hbig).
  reflexivity.
Qed.

(** X7: when all four overrides of the extended configuration are not zero,
    the priorities [sceAvPlayerInitEx] hands to the player are the four
    overrides and the four affinities of the configuration, whatever the
    kernel answers to the priority query. *)
Theorem InitEx_all_overrides (p_data : SceAvPlayerInitDataEx) (p_player : loc)
    (w : World) :
  allocator_missing (ex_memory_replacement p_data) = false ->
  ex_video_decoder_priority p_data <> 0 ->
  ex_audio_decoder_priority p_data <> 0 ->
  ex_controller_priority p_data <> 0 ->
  ex_demuxer_priority p_data <> 0 ->
  exists w',
    let player := fresh (dom (players w)) in
    sceAvPlayerInitEx (Some p_data) (Some p_player) w = Some (ORBIS_OK, w')
    /\ trace w' = (trace w ++ [EvNew player])
         ++ [EvInit player (InitEx_data p_data)
               {| video_decoder_priority := ex_video_decoder_priority p_data;
                  video_decoder_affinity := ex_video_decoder_affinity p_data;
                  audio_decoder_priority := ex_audio_decoder_priority p_data;
                  audio_decoder_affinity := ex_audio_decoder_affinity p_data;
                  controller_priority := ex_controller_priority p_data;
                  controller_affinity := ex_controller_affinity p_data;
                  demuxer_priority := ex_demuxer_priority p_data;
                  demuxer_affinity := ex_demuxer_affinity p_data |}].
Proof.
  intros Halloc Hv Ha Hc Hd.
  exists (InitEx_world p_data p_player w). simpl.
  split; [apply InitEx_run; exact Halloc|].
  unfold InitEx_world. simpl. do 3 f_equal.
  unfold InitEx_priorities.
  apply Z.eqb_neq in Hv, Ha, Hc, Hd. rewrite Hv, Ha, Hc, Hd. reflexivity.
Qed.

(** X8: the handle a successful [sceAvPlayerInit] returns was not live
    before and is live afterwards, holding the player [AvPlayer::Init] made;
    every other player is as before and no handle cell is written.
    [sceAvPlayerInitEx] does the same and stores the handle in the cell it
    was given, leaving the other cells alone. *)
Theorem Init_fresh_handle (data : SceAvPlayerInitData) (p_data : SceAvPlayerInitDataEx)
    (p_player : loc) (w : World) :
  (allocator_missing (memory_replacement data) = false ->
   exists player w',
     sceAvPlayerInit (Some data) w = Some (Some player, w')
     /\ players w !! player = None
     /\ players w' !! player
        = Some (AvPlayer_Init data (Init_priorities data) AvPlayer_new)
     /\ (forall l, l <> player -> players w' !! l = players w !! l)
     /\ handle_cells w' = handle_cells w)
  /\ (allocator_missing (ex_memory_replacement p_data) = false ->
      exists player w',
        sceAvPlayerInitEx (Some p_data) (Some p_player) w = Some (ORBIS_OK, w')
        /\ players w !! player = None
        /\ is_Some (players w' !! player)
        /\ (forall l, l <> player -> players w' !! l = players w !! l)
        /\ handle_cells w' !! p_player = Some (Some player)
        /\ (forall q, q <> p_player -> handle_cells w' !! q = handle_cells w !! q)).
Proof.
  split; intros Halloc.
  - exists (fresh (dom (players w))), (Init_world data w).
    split; [apply Init_run; exact Halloc|].
    split; [apply fresh_not_live|]. simpl.
    split; [apply lookup_insert_eq|].
    split; [|reflexivity].
    intros l Hl. apply lookup_insert_ne. congruence.
  - exists (fresh (dom (players w))), (InitEx_world p_data p_player w).
    split; [apply InitEx_run; exact Halloc|].
    split; [apply fresh_not_live|]. simpl.
    split; [rewrite lookup_insert_eq; eauto|].
    split; [intros l Hl; apply lookup_insert_ne; congruence|].
    split; [apply lookup_insert_eq|].
    intros q Hq. apply lookup_insert_ne. congruence.
Qed.

(** X9: closing the handle [sceAvPlayerInit] just returned gives ORBIS_OK and
    leaves exactly the players that were live before the initialisation;
    the events recorded are the allocation, the initialisation and the
    destruction of that one player. *)
Theorem Init_then_Close (data : SceAvPlayerInitData) (w : World) :
  allocator_missing (memory_replacement data) = false ->
  exists w',
    let player := fresh (dom (players w)) in
    (sceAvPlayerInit (Some data) ≫= sceAvPlayerClose) w = Some (ORBIS_OK, w')
    /\ players w' = players w
    /\ trace w' = trace w ++ [EvNew player;
                              EvInit player data (Init_priorities data);
                              EvDelete player]
    /\ frame_infos w' = frame_infos w
    /\ frame_infos_ex w' = frame_infos_ex w
    /\ stream_infos w' = stream_infos w
    /\ handle_cells w' = handle_cells w.
Proof.
  intros Halloc. eexists. simpl.
  split.
  - rewrite (bind_Some _ _ _ _ _ (Init_run data w Halloc)).
    eapply Close_run. simpl. apply lookup_insert_eq.
  - simpl. split; [apply delete_insert_id, fresh_not_live|].
    split; [rewrite <- !app_assoc; reflexivity|]. auto.
Qed.

(** X10: two initialisations in a row return two different handles, and
    both are live afterwards. *)
Theorem Init_twice_distinct (d1 d2 : SceAvPlayerInitData) (w : World) :
  allocator_missing (memory_replacement d1) = false ->
  allocator_missing (memory_replacement d2) = false ->
  exists h1 h2 w',
    (a ← sceAvPlayerInit (Some d1); b ← sceAvPlayerInit (Some d2); mret (a, b)) w
    = Some ((Some h1, Some h2), w')
    /\ h1 <> h2
    /\ is_Some (players w' !! h1)
    /\ is_Some (players w' !! h2).
Proof.
  intros H1 H2.
  set (w1 := Init_world d1 w).
  exists (fresh (dom (players w))), (fresh (dom (players w1))), (Init_world d2 w1).
  assert (Hne : fresh (dom (players w)) <> fresh (dom (players w1))).
  { intros Heq. pose proof (fresh_not_live w1) as Hf. rewrite <- Heq in Hf.
    subst w1. simpl in Hf. rewrite lookup_insert_eq in Hf. discriminate Hf. }
  split.
  - rewrite (bind_Some _ _ _ _ _ (Init_run d1 w H1)).
    rewrite (bind_Some _ _ _ _ _ (Init_run d2 w1 H2)). reflexivity.
  - split; [exact Hne|]. simpl. split.
    + rewrite lookup_insert_ne by (intros E; apply Hne; symmetry; exact E).
      subst w1. simpl. rewrite lookup_insert_eq. eauto.
    + rewrite lookup_insert_eq. eauto.
Qed.

(** X11: after [sceAvPlayerClose] on a live handle, every call that
    dereferences that handle - a delegating function past its null checks,
    or a second [sceAvPlayerClose] - is undefined. *)
Theorem use_after_Close (h : loc) (this : AvPlayer) (c : Call) (w : World) :
  players w !! h = Some this ->
  dereferences c = Some h ->
  (sceAvPlayerClose (Some h) ≫= fun _ => run c) w = None.
Proof.
  intros Hlive Hc.
  rewrite (bind_Some _ _ _ _ _ (Close_run h this w Hlive)).
  destruct c as [[l|] ?|? ? ?| |[l|]|[l|]|? ?|[l|] ?|[l|] [p|]|[l|] ? [p|]
                |[l|] [p|]|[l|] [p|]|[l|]|? ?|?|[l|] [d|]|? ?
                |?|? ?|? ?|? ?|? ?|[l|]|[l|]|[l|]|? ?];
    simpl in Hc; try discriminate Hc; injection Hc as ->;
    simpl; run_M; rewrite lookup_delete_eq; reflexivity.
Qed.

(** X12: [sceAvPlayerDisableStream] never reaches the player: it returns
    ORBIS_AVPLAYER_ERROR_INVALID_PARAMS on a null handle and ORBIS_OK on any
    other, and changes nothing. After [sceAvPlayerEnableStream] on a live
    handle it leaves the world as the enabling left it. *)
Theorem DisableStream_is_stub (handle : SceAvPlayerHandle) (stream_id stream_id' : Z)
    (w : World) :
  sceAvPlayerDisableStream handle stream_id w
  = Some (match handle with
          | Some _ => ORBIS_OK
          | None => ORBIS_AVPLAYER_ERROR_INVALID_PARAMS
          end, w)
  /\ (forall h this, handle = Some h -> players w !! h = Some this ->
      (sceAvPlayerEnableStream handle stream_id'
         ≫= fun _ => sceAvPlayerDisableStream handle stream_id) w
      = Some (ORBIS_OK,
              call_world h MEnableStream
                (snd (AvPlayer_EnableStream stream_id' this)) w)).
Proof.
  split; [destruct handle; reflexivity|].
  intros h this -> Hlive. simpl. run_M. rewrite Hlive. reflexivity.
Qed.

(** X13: a call of the family is undefined exactly when it dereferences a
    handle that is not live; every other call returns. *)
Theorem run_undefined_iff (c : Call) (w : World) :
  run c w = None
  <-> exists h, dereferences c = Some h /\ players w !! h = None.
Proof.
  destruct c as [[l|] ?|[l|] ? ?| |[l|]|[l|]|[l|] ?|[l|] ?|[l|] [p|]|[l|] ? [p|]
                |[l|] [p|]|[l|] [p|]|[l|]|[l|] ?|[l|]|[l|] [d|]|? ?
                |[l|]|[l|] ?|? ?|[l|] ?|[l|] ?|[l|]|[l|]|[l|]|? ?];
    simpl; run_M;
    try (split; [intros H; discriminate H | intros (h & H & _); discriminate H]).
  all: destruct (players w !! l) as [this|] eqn:Hl; simpl;
    try (destruct (AvPlayer_GetAudioData _ this) as [[? ?] ?]);
    try (destruct (AvPlayer_GetVideoData _ this) as [[? ?] ?]);
    try (destruct (AvPlayer_GetVideoDataEx _ this) as [[? ?] ?]);
    try (destruct (AvPlayer_GetStreamInfo _ _ this) as [[? ?] ?]);
    simpl;
    (split; [intros H; try discriminate H; eauto
            | intros (h & H & Hn); injection H as <-; congruence]).
Qed.

(** X14: on a live handle each delegating entry point without buffer
    arguments returns what the member function of [AvPlayer] returns,
    unchanged, leaves the player as the member function left it, records
    that one call and touches nothing else. [sceAvPlayerPostInit] does so
    when its data pointer is not null. *)
Theorem delegation_passes_through (h : loc) (this : AvPlayer) (w : World)
    (filename : option string) (stream_id : Z) (data : SceAvPlayerPostInitData) :
  players w !! h = Some this ->
  let passes {A} (r : option (A * World)) (m : Method) (f : AvPlayer -> A * AvPlayer) :=
    r = Some (fst (f this), call_world h m (snd (f this)) w) in
  passes (sceAvPlayerAddSource (Some h) filename w) MAddSource
    (AvPlayer_AddSource filename)
  /\ passes (sceAvPlayerCurrentTime (Some h) w) MCurrentTime AvPlayer_CurrentTime
  /\ passes (sceAvPlayerEnableStream (Some h) stream_id w) MEnableStream
       (AvPlayer_EnableStream stream_id)
  /\ passes (sceAvPlayerIsActive (Some h) w) MIsActive AvPlayer_IsActive
  /\ passes (sceAvPlayerPostInit (Some h) (Some data) w) MPostInit
       (AvPlayer_PostInit data)
  /\ passes (sceAvPlayerStart (Some h) w) MStart AvPlayer_Start
  /\ passes (sceAvPlayerStop (Some h) w) MStop AvPlayer_Stop
  /\ passes (sceAvPlayerStreamCount (Some h) w) MGetStreamCount
       AvPlayer_GetStreamCount.
Proof.
  intros Hlive passes. subst passes. simpl.
  repeat split; run_M; rewrite Hlive; reflexivity.
Qed.

(** X15: on a live handle and a buffer pointer that is not null, the four
    functions that fill a buffer hand the member function the present
    content of that buffer, return its result, and store what it leaves in
    that buffer; the other buffers, the handle cells and the other players
    stay as they were, and the one call is recorded. *)
Theorem buffer_delegation (h p : loc) (this : AvPlayer) (w : World) (stream_id : Z) :
  players w !! h = Some this ->
  (exists w',
     let '(res, info, this') := AvPlayer_GetAudioData (frame_infos w !! p) this in
     sceAvPlayerGetAudioData (Some h) (Some p) w = Some (res, w')
     /\ frame_infos w' !! p = info
     /\ (forall q, q <> p -> frame_infos w' !! q = frame_infos w !! q)
     /\ players w' = <[h := this']> (players w)
     /\ trace w' = trace w ++ [EvCall h MGetAudioData]
     /\ frame_infos_ex w' = frame_infos_ex w /\ stream_infos w' = stream_infos w
     /\ handle_cells w' = handle_cells w)
  /\ (exists w',
     let '(res, info, this') := AvPlayer_GetVideoData (frame_infos w !! p) this in
     sceAvPlayerGetVideoData (Some h) (Some p) w = Some (res, w')
     /\ frame_infos w' !! p = info
     /\ (forall q, q <> p -> frame_infos w' !! q = frame_infos w !! q)
     /\ players w' = <[h := this']> (players w)
     /\ trace w' = trace w ++ [EvCall h MGetVideoData]
     /\ frame_infos_ex w' = frame_infos_ex w /\ stream_infos w' = stream_infos w
     /\ handle_cells w' = handle_cells w)
  /\ (exists w',
     let '(res, info, this') := AvPlayer_GetVideoDataEx (frame_infos_ex w !! p) this in
     sceAvPlayerGetVideoDataEx (Some h) (Some p) w = Some (res, w')
     /\ frame_infos_ex w' !! p = info
     /\ (forall q, q <> p -> frame_infos_ex w' !! q = frame_infos_ex w !! q)
     /\ players w' = <[h := this']> (players w)
     /\ trace w' = trace w ++ [EvCall h MGetVideoDataEx]
     /\ frame_infos w' = frame_infos w /\ stream_infos w' = stream_infos w
     /\ handle_cells w' = handle_cells w)
  /\ (exists w',
     let '(res, info, this') :=
       AvPlayer_GetStreamInfo stream_id (stream_infos w !! p) this in
     sceAvPlayerGetStreamInfo (Some h) stream_id (Some p) w = Some (res, w')
     /\ stream_infos w' !! p = info
     /\ (forall q, q <> p -> stream_infos w' !! q = stream_infos w !! q)
     /\ players w' = <[h := this']> (players w)
     /\ trace w' = trace w ++ [EvCall h MGetStreamInfo]
     /\ frame_infos w' = frame_infos w /\ frame_infos_ex w' = frame_infos_ex w
     /\ handle_cells w' = handle_cells w).
Proof.
  intros Hlive.
  repeat split.
  - simpl. run_M. rewrite Hlive.
    destruct (AvPlayer_GetAudioData (frame_infos w !! p) this) as [[res info] this'].
    simpl. eexists. split; [reflexivity|]. simpl.
    split; [apply lookup_partial_alter_eq|].
    split; [intros q Hq; apply lookup_partial_alter_ne; congruence|]. auto.
  - simpl. run_M. rewrite Hlive.
    destruct (AvPlayer_GetVideoData (frame_infos w !! p) this) as [[res info] this'].
    simpl. eexists. split; [reflexivity|]. simpl.
    split; [apply lookup_partial_alter_eq|].
    split; [intros q Hq; apply lookup_partial_alter_ne; congruence|]. auto.
  - simpl. run_M. rewrite Hlive.
    destruct (AvPlayer_GetVideoDataEx (frame_infos_ex w !! p) this)
      as [[res info] this'].
    simpl. eexists. split; [reflexivity|]. simpl.
    split; [apply lookup_partial_alter_eq|].
    split; [intros q Hq; apply lookup_partial_alter_ne; congruence|]. auto.
  - simpl. run_M. rewrite Hlive.
    destruct (AvPlayer_GetStreamInfo stream_id (stream_infos w !! p) this)
      as [[res info] this'].
    simpl. eexists. split; [reflexivity|]. simpl.
    split; [apply lookup_partial_alter_eq|].
    split; [intros q Hq; apply lookup_partial_alter_ne; congruence|]. auto.
Qed.

(** X16: a call of the family that returns never writes a handle cell,
    never makes a player and never touches a player other than the one it
    dereferences; it records nothing when it dereferences no handle, and
    otherwise exactly one event on that handle, which was live: its
    destruction for [sceAvPlayerClose], a member call for the others. *)
Theorem run_frame (c : Call) (w w' : World) (r : Ret) :
  run c w = Some (r, w') ->
  handle_cells w' = handle_cells w
  /\ scePthreadGetprio_self w' = scePthreadGetprio_self w
  /\ dom (players w') ⊆ dom (players w)
  /\ (forall l, dereferences c <> Some l -> players w' !! l = players w !! l)
  /\ (dereferences c = None /\ w' = w
      \/ exists h, dereferences c = Some h /\ is_Some (players w !! h)
           /\ (c = Call_Close (Some h) /\ trace w' = trace w ++ [EvDelete h]
               \/ c <> Call_Close (Some h)
                  /\ exists m, trace w' = trace w ++ [EvCall h m])).
Proof.
  intros Hrun.
  destruct c as [[l|] ?|[l|] ? ?| |[l|]|[l|]|[l|] ?|[l|] ?|[l|] [p|]|[l|] ? [p|]
                |[l|] [p|]|[l|] [p|]|[l|]|[l|] ?|[l|]|[l|] [d|]|? ?
                |[l|]|[l|] ?|? ?|[l|] ?|[l|] ?|[l|]|[l|]|[l|]|? ?];
    simpl in Hrun; revert Hrun; run_M;
    try (intros Hrun; injection Hrun as <- <-;
         repeat split; auto; fail).
  all: destruct (players w !! l) as [this|] eqn:Hl; simpl;
    try (destruct (AvPlayer_GetAudioData _ this) as [[? ?] ?]);
    try (destruct (AvPlayer_GetVideoData _ this) as [[? ?] ?]);
    try (destruct (AvPlayer_GetVideoDataEx _ this) as [[? ?] ?]);
    try (destruct (AvPlayer_GetStreamInfo _ _ this) as [[? ?] ?]);
    simpl; intros Hrun; try discriminate Hrun; injection Hrun as <- <-; simpl.
  all: split; [reflexivity|]; split; [reflexivity|]; split;
    [ first [ rewrite dom_insert_lookup_L by eauto; reflexivity
            | rewrite dom_delete_L; apply subseteq_difference_l; reflexivity ] |].
  all: split;
    [ intros l0 Hne;
      first [ apply lookup_insert_ne | apply lookup_delete_ne ]; congruence |].
  all: right; exists l; split; [reflexivity|]; split; [eauto|].
  all: first [ left; split; reflexivity
             | right; split; [discriminate | eexists; reflexivity] ].
Qed.

(** X17: when ORBIS_AVPLAYER_ERROR_INVALID_PARAMS is a negative [int], as the
    status codes with the top bit set are, [sceAvPlayerCurrentTime] on a null
    handle returns it sign-extended to [u64]: the constant plus 2^64, a time
    of at least 2^64 - 2^31. *)
Theorem CurrentTime_null_sign_extended (w : World) :
  - 2 ^ 31 <= ORBIS_AVPLAYER_ERROR_INVALID_PARAMS < 0 ->
  sceAvPlayerCurrentTime None w
  = Some (2 ^ 64 + ORBIS_AVPLAYER_ERROR_INVALID_PARAMS, w)
  /\ 2 ^ 64 - 2 ^ 31 <= 2 ^ 64 + ORBIS_AVPLAYER_ERROR_INVALID_PARAMS < 2 ^ 64.
Proof.
  intros Hneg. split; [|lia].
  simpl. unfold mret, M_ret, to_u64. do 2 f_equal.
  change (2 ^ 31) with 2147483648 in Hneg.
  change (2 ^ 64) with 18446744073709551616.
  symmetry. apply (Z.mod_unique _ _ (-1)); lia.
Qed.

(** X18: when the kernel reports the priority b (0 <= b < 2^31, status 0)
    for the calling thread and the extended configuration has no overrides,
    [sceAvPlayerInitEx] derives the same four priorities as
    [sceAvPlayerInit] does from a configuration whose base_priority is b. *)
Theorem InitEx_agrees_with_Init (data : SceAvPlayerInitData)
    (p_data : SceAvPlayerInitDataEx) (p_player : loc) (w : World) (b : Z) :
  allocator_missing (memory_replacement data) = false ->
  allocator_missing (ex_memory_replacement p_data) = false ->
  scePthreadGetprio_self w = (0, Some b) ->
  0 <= b < 2 ^ 31 ->
  base_priority data = b ->
  ex_video_decoder_priority p_data = 0 ->
  ex_audio_decoder_priority p_data = 0 ->
  ex_controller_priority p_data = 0 ->
  ex_demuxer_priority p_data = 0 ->
  exists w1 w2 pr1 pr2,
    let player := fresh (dom (players w)) in
    sceAvPlayerInit (Some data) w = Some (Some player, w1)
    /\ sceAvPlayerInitEx (Some p_data) (Some p_player) w = Some (ORBIS_OK, w2)
    /\ trace w1 = (trace w ++ [EvNew player]) ++ [EvInit player data pr1]
    /\ trace w2 = (trace w ++ [EvNew player])
                  ++ [EvInit player (InitEx_data p_data) pr2]
    /\ video_decoder_priority pr1 = video_decoder_priority pr2
    /\ audio_decoder_priority pr1 = audio_decoder_priority pr2
    /\ controller_priority pr1 = controller_priority pr2
    /\ demuxer_priority pr1 = demuxer_priority pr2.
Proof.
  intros H1 H2 Hq Hb Hbase Hv Ha Hc Hd.
  exists (Init_world data w), (InitEx_world p_data p_player w),
    (Init_priorities data),
    (InitEx_priorities p_data (InitEx_base_priority (scePthreadGetprio_self w))).
  simpl. split; [apply Init_run; exact H1|].
  split; [apply InitEx_run; exact H2|].
  split; [reflexivity|]. split; [reflexivity|].
  rewrite Hv, Ha, Hc, Hd, Hq, Hbase. simpl.
  unfold InitEx_base_priority. simpl.
  assert (Hu : forall x, 0 <= x < 2 ^ 31 -> to_u32 x = x).
  { intros x Hx. unfold to_u32. apply Z.mod_small.
    change (2 ^ 31) with 2147483648 in Hx.
    change (2 ^ 32) with 4294967296. lia. }
  destruct (Z.eqb_spec b 0) as [->|Hnz]; simpl.
  - repeat split.
  - rewrite (Hu b Hb). repeat split.
Qed.

End FacadeFurther.

(** ** The further properties at concrete calls *)

Lemma Init_priorities_ordered_witness :
  allocator_missing (memory_replacement (toy_data 760)) = false
  /\ exists w' priorities,
       @sceAvPlayerInit toy_impl (Some (toy_data 760)) toy_world
       = Some (Some 2%positive, w')
       /\ controller_priority priorities <= video_decoder_priority priorities
       /\ demuxer_priority priorities <= 767.
Proof.
  split; [reflexivity|].
  destruct (@Init_priorities_ordered toy_impl (toy_data 760) toy_world eq_refl)
    as (w' & priorities & Hrun & _ & _ & Hcv & _ & _ & Hd & _).
  exists w', priorities. split; [exact Hrun|]. split; assumption.
Defined.

Lemma InitEx_negative_base_witness :
  - 2 ^ 31 <= -5 < 0
  /\ exists w',
       @sceAvPlayerInitEx toy_impl (Some (toy_data_ex 0 0 0 0)) (Some 7%positive)
         (toy_world_prio (0, Some (-5))) = Some (0, w')
       /\ trace w'
          = [EvNew 2%positive;
             EvInit 2%positive (toy_data 0)
               {| video_decoder_priority := 767; video_decoder_affinity := 1;
                  audio_decoder_priority := 767; audio_decoder_affinity := 2;
                  controller_priority := 766; controller_affinity := 4;
                  demuxer_priority := 767; demuxer_affinity := 8 |}].
Proof.
  split; [change (2 ^ 31) with 2147483648; lia|].
  apply (@InitEx_negative_base toy_impl (toy_data_ex 0 0 0 0) 7%positive
           (toy_world_prio (0, Some (-5))) (-5));
    try reflexivity.
  change (2 ^ 31) with 2147483648. lia.
Defined.

Lemma InitEx_all_overrides_witness :
  exists w',
    @sceAvPlayerInitEx toy_impl (Some (toy_data_ex 10 20 30 40)) (Some 7%positive)
      (toy_world_prio (3, None)) = Some (0, w')
    /\ trace w'
       = [EvNew 2%positive;
          EvInit 2%positive (toy_data 0)
            {| video_decoder_priority := 10; video_decoder_affinity := 1;
               audio_decoder_priority := 20; audio_decoder_affinity := 2;
               controller_priority := 30; controller_affinity := 4;
               demuxer_priority := 40; demuxer_affinity := 8 |}].
Proof.
  apply (@InitEx_all_overrides toy_impl (toy_data_ex 10 20 30 40) 7%positive
           (toy_world_prio (3, None))); [reflexivity | discriminate ..].
Defined.

Lemma Init_fresh_handle_witness :
  exists player w',
    @sceAvPlayerInit toy_impl (Some (toy_data 700)) toy_world = Some (Some player, w')
    /\ players toy_world !! player = None
    /\ is_Some (players w' !! player)
    /\ exists player2 w2,
         @sceAvPlayerInitEx toy_impl (Some (toy_data_ex 0 0 0 0)) (Some 7%positive)
           toy_world = Some (0, w2)
         /\ handle_cells w2 !! 7%positive = Some (Some player2).
Proof.
  destruct (@Init_fresh_handle toy_impl (toy_data 700) (toy_data_ex 0 0 0 0)
              7%positive toy_world) as [Hinit Hex].
  destruct (Hinit eq_refl) as (player & w' & Hrun & Hnot & Hlive & _).
  destruct (Hex eq_refl) as (player2 & w2 & Hrun2 & _ & _ & _ & Hcell & _).
  exists player, w'. split; [exact Hrun|]. split; [exact Hnot|].
  split; [rewrite Hlive; eauto|].
  exists player2, w2. split; assumption.
Defined.

Lemma Init_then_Close_witness :
  exists w',
    (@sceAvPlayerInit toy_impl (Some (toy_data 700)) ≫= @sceAvPlayerClose toy_impl)
      toy_world = Some (0, w')
    /\ players w' = players toy_world.
Proof.
  destruct (@Init_then_Close toy_impl (toy_data 700) toy_world eq_refl)
    as (w' & Hrun & Hplayers & _).
  exists w'. split; assumption.
Defined.

Lemma Init_twice_distinct_witness :
  exists h1 h2 w',
    (a ← @sceAvPlayerInit toy_impl (Some (toy_data 700));
     b ← @sceAvPlayerInit toy_impl (Some (toy_data 0));
     mret (a, b)) toy_world = Some ((Some h1, Some h2), w')
    /\ h1 <> h2.
Proof.
  destruct (@Init_twice_distinct toy_impl (toy_data 700) (toy_data 0) toy_world
              eq_refl eq_refl) as (h1 & h2 & w' & Hrun & Hne & _).
  exists h1, h2, w'. split; assumption.
Defined.

Lemma use_after_Close_witness :
  (@sceAvPlayerClose toy_impl (Some 1%positive)
     ≫= fun _ => run (@Call_Close toy_impl (Some 1%positive))) toy_world = None
  /\ (@sceAvPlayerClose toy_impl (Some 1%positive)
        ≫= fun _ => run (@Call_Start toy_impl (Some 1%positive))) toy_world = None.
Proof.
  split.
  - apply (@use_after_Close toy_impl 1%positive true (Call_Close (Some 1%positive))
             toy_world); reflexivity.
  - apply (@use_after_Close toy_impl 1%positive true (Call_Start (Some 1%positive))
             toy_world); reflexivity.
Defined.

Lemma DisableStream_is_stub_witness :
  (@sceAvPlayerEnableStream toy_impl (Some 1%positive) 3
     ≫= fun _ => @sceAvPlayerDisableStream toy_impl (Some 1%positive) 3) toy_world
  = Some (0, @call_world toy_impl 1%positive MEnableStream true toy_world).
Proof.
  apply (proj2 (@DisableStream_is_stub toy_impl (Some 1%positive) 3 3 toy_world)
           1%positive true); reflexivity.
Defined.

Lemma run_undefined_iff_witness :
  run (@Call_Stop toy_impl (Some 9%positive)) toy_world = None
  /\ run (@Call_Stop toy_impl (Some 1%positive)) toy_world <> None.
Proof.
  split.
  - apply (proj2 (@run_undefined_iff toy_impl (Call_Stop (Some 9%positive)) toy_world)).
    exists 9%positive. split; reflexivity.
  - intros H.
    apply (proj1 (@run_undefined_iff toy_impl (Call_Stop (Some 1%positive)) toy_world))
      in H.
    destruct H as (h & Hd & Hn). injection Hd as <-. discriminate Hn.
Defined.

Lemma delegation_passes_through_witness :
  @sceAvPlayerStop toy_impl (Some 1%positive) toy_world
  = Some (0, @call_world toy_impl 1%positive MStop false toy_world).
Proof.
  destruct (@delegation_passes_through toy_impl 1%positive true toy_world None 0 0
              eq_refl) as (_ & _ & _ & _ & _ & _ & Hstop & _).
  exact Hstop.
Defined.

Lemma buffer_delegation_witness :
  exists w',
    @sceAvPlayerGetVideoData toy_impl (Some 1%positive) (Some 4%positive) toy_world
    = Some (true, w')
    /\ trace w' = [EvCall 1%positive MGetVideoData].
Proof.
  destruct (@buffer_delegation toy_impl 1%positive 4%positive true toy_world 0
              eq_refl) as (_ & (w' & Hvideo) & _).
  simpl in Hvideo. destruct Hvideo as (Hrun & _ & _ & _ & Htrace & _).
  exists w'. split; assumption.
Defined.

Lemma run_frame_witness :
  exists r w',
    run (@Call_Close toy_impl (Some 1%positive)) toy_world = Some (r, w')
    /\ handle_cells w' = handle_cells toy_world
    /\ dom (players w') ⊆ dom (players toy_world).
Proof.
  eexists _, _. split; [reflexivity|].
  destruct (@run_frame toy_impl (Call_Close (Some 1%positive)) toy_world _ _ eq_refl)
    as (Hcells & _ & Hdom & _).
  split; assumption.
Defined.

Lemma CurrentTime_null_sign_extended_witness :
  @sceAvPlayerCurrentTime toy_impl None toy_world
  = Some (0xFFFFFFFF806A0001, toy_world).
Proof.
  destruct (@CurrentTime_null_sign_extended toy_impl toy_world) as [H _].
  - simpl. change (2 ^ 31) with 2147483648. lia.
  - exact H.
Defined.

Lemma InitEx_agrees_with_Init_witness :
  exists w1 w2 pr1 pr2,
    @sceAvPlayerInit toy_impl (Some (toy_data 650)) (toy_world_prio (0, Some 650))
    = Some (Some 2%positive, w1)
    /\ @sceAvPlayerInitEx toy_impl (Some (toy_data_ex 0 0 0 0)) (Some 7%positive)
         (toy_world_prio (0, Some 650)) = Some (0, w2)
    /\ trace w1 = [EvNew 2%positive; EvInit 2%positive (toy_data 650) pr1]
    /\ trace w2 = [EvNew 2%positive; EvInit 2%positive (toy_data 0) pr2]
    /\ video_decoder_priority pr1 = video_decoder_priority pr2
    /\ demuxer_priority pr1 = demuxer_priority pr2.
Proof.
  destruct (@InitEx_agrees_with_Init toy_impl (toy_data 650) (toy_data_ex 0 0 0 0)
              7%positive (toy_world_prio (0, Some 650)) 650)
    as (w1 & w2 & pr1 & pr2 & H1 & H2 & T1 & T2 & Hv & _ & _ & Hd);
    try reflexivity.
  - change (2 ^ 31) with 2147483648. lia.
  - exists w1, w2, pr1, pr2. auto 10.
Defined.
